(** * Book records validated with pydantic: main.py

    The module declares two exception classes, the model class [Book] with a
    pre root validator ([check_isbn10_and_isbn13]), a field validator
    ([isbn_10_validator]) and a [Config] that forbids mutation, and a [main]
    that builds one [Book] per record of a JSON document and prints two
    projections of the first one.

    The embedding has three layers:
    - Python values, exceptions and the built-ins the code calls;
    - the part of pydantic that building a [Book] from a record, attribute
      assignment and [.dict(include=..., exclude=...)] run through.  main.py
      uses the API of pydantic 1.x ([root_validator(pre=True)], [validator],
      [Config.allow_mutation], [dict]); the definitions follow pydantic 1.10
      ([validate_model], [ModelField.validate], [BaseModel.__setattr__],
      [BaseModel._calculate_keys]);
    - the declarations of main.py on top of both. *)

From Stdlib Require Import ZArith NArith List String Ascii Lia.
From Stdlib Require Import SpecFloat DecimalString.
From stdpp Require Import base option list gmap sorting.

Set Warnings "-register-all,-clear-no-such-hyp".
Open Scope N_scope.

(** ** Python values *)

(** A [str] is a sequence of Unicode code points. *)
Abbreviation pystr := (list N).

(** A literal of the source text, as code points. *)
Fixpoint py (s : string) : pystr :=
  match s with
  | EmptyString => []
  | String a s' => N_of_ascii a :: py s'
  end.

(** What [json.load] produces: null, booleans, integers, floats (binary64),
    strings, arrays and objects. *)
Inductive pyval :=
| PNone
| PBool (b : bool)
| PInt (n : Z)
| PFloat (x : spec_float)
| PStr (s : pystr)
| PList (items : list pyval)
| PDict (items : list (pystr * pyval)).

(** Exceptions.  The first two are the classes of main.py, with the attributes
    their [__init__] stores; the next six are Python's own; the last six are
    pydantic's ([pydantic.errors] and [ValidationError], whose payload is its
    list of [ErrorWrapper(exc, loc)]). *)
Inductive exn :=
| ISBN10FormatError (value : pystr) (message : pystr)
| ISBNMissingError (title : pyval) (message : pystr)
| KeyError (key : pystr)
| TypeError (message : pystr)
| ValueError (message : pystr)
| OverflowError (message : pystr)
| IndexError (message : pystr)
| AttributeError (message : pystr)
| MissingError
| NoneIsNotAllowedError
| StrError
| FloatError
| ExtraError
| ValidationError (errors : list (pystr * exn)).

Definition ErrorWrapper := (pystr * exn)%type.

(** [isinstance(exc, (ValueError, TypeError))]: pydantic's error classes
    derive from [ValueError] or [TypeError], [ValidationError] from
    [ValueError]; [KeyError] and [IndexError] are [LookupError]s,
    [OverflowError] an [ArithmeticError], and [AttributeError] and the two
    classes of main.py derive from [Exception] directly. *)
Definition is_value_or_type_error (e : exn) : bool :=
  match e with
  | TypeError _ | ValueError _
  | MissingError | NoneIsNotAllowedError | StrError | FloatError | ExtraError
  | ValidationError _ => true
  | ISBN10FormatError _ _ | ISBNMissingError _ _
  | KeyError _ | OverflowError _ | IndexError _ | AttributeError _ => false
  end.

(** A computation returns or raises. *)
Inductive result (A : Type) :=
| Ok (a : A)
| Raise (e : exn).
Arguments Ok {A} a.
Arguments Raise {A} e.

#[global] Instance result_ret : MRet result := λ A a, Ok a.
#[global] Instance result_bind : MBind result := λ A B f m,
  match m with
  | Ok a => f a
  | Raise e => Raise e
  end.

(** ** Built-ins *)

Definition ascii_digit (c : N) : bool := (48 <=? c) && (c <=? 57).

(** The built-ins whose tables are not part of the program: [str.isdigit] and
    [int] on a one-character string (the Unicode database), [float(v)] and
    [str(v)] (number parsing and printing).  [int_char c = None] stands for
    the [ValueError] of [int].  The two laws fix them on ASCII, where every
    Python agrees. *)
Class Builtins := {
  isdigit : N → bool;
  int_char : N → option Z;
  float_ : pyval → result spec_float;
  str_ : pyval → result pystr;
  isdigit_ascii : ∀ c, c < 128 → isdigit c = ascii_digit c;
  int_char_ascii : ∀ c, ascii_digit c = true → int_char c = Some (Z.of_N c - 48)%Z
}.

(** [enumerate(l)] *)
Fixpoint enumerate_from {A} (i : Z) (l : list A) : list (Z * A) :=
  match l with
  | [] => []
  | x :: l' => (i, x) :: enumerate_from (i + 1) l'
  end.
Definition enumerate {A} (l : list A) : list (Z * A) := enumerate_from 0 l.

(** [values[key]] *)
Definition getitem (values : gmap pystr pyval) (key : pystr) : result pyval :=
  match values !! key with
  | Some v => Ok v
  | None => Raise (KeyError key)
  end.

(** [key in values] *)
Definition contains (values : gmap pystr pyval) (key : pystr) : bool :=
  bool_decide (is_Some (values !! key)).

(** The name of a value's type, as error messages print it. *)
Definition type_name (v : pyval) : pystr :=
  match v with
  | PNone => py "NoneType"
  | PBool _ => py "bool"
  | PInt _ => py "int"
  | PFloat _ => py "float"
  | PStr _ => py "str"
  | PList _ => py "list"
  | PDict _ => py "dict"
  end.

Section Program.
Context {rt : Builtins}.

(** ** isbn_10_validator *)

(** [char in "Xx"], for a one-character [char] *)
Definition in_Xx (char : N) : bool := (char =? 88) || (char =? 120).

(** [[char for char in value if char.isdigit() or char in "Xx"]] *)
Definition isbn_chars (value : pystr) : pystr :=
  List.filter (λ char, isdigit char || in_Xx char) value.

Definition char_to_int (char : N) : result Z :=
  if in_Xx char then Ok 10%Z
  else match int_char char with
       | Some n => Ok n
       | None =>
           Raise (ValueError (py "invalid literal for int() with base 10: '" ++ [char] ++ py "'"))
       end.

(** [sum((10 - i) * char_to_int(x) for i, x in enumerate(chars))]: the
    generator is consumed from the left and the first [int] that raises ends
    the sum. *)
Definition weighted_sum (chars : pystr) : result Z :=
  fold_left (λ acc '(i, x), s ← acc; n ← char_to_int x; Ok (s + (10 - i) * n)%Z)
            (enumerate chars) (Ok 0%Z).

(** The validator of field [isbn_10], declared on [value: str].  pydantic
    calls it with the [str] that [str_validator] produced or with [None] (see
    [validate] and [str_validator_str]), and nothing else reaches it.  The
    comprehension iterates [value]: on [None], as on a number, that raises
    [TypeError]; the last branch stands for this. *)
Definition isbn_10_validator (value : pyval) : result pyval :=
  match value with
  | PStr s =>
      let chars := isbn_chars s in
      if negb (Nat.eqb (length chars) 10) then
        Raise (ISBN10FormatError s (py "ISBN-10 must be 10 digits."))
      else
        weighted_sum ← weighted_sum chars;
        if negb (weighted_sum mod 11 =? 0)%Z then
          Raise (ISBN10FormatError s (py "ISBN-10 weighted sum must be divisible by 11."))
        else Ok value
  | _ => Raise (TypeError (py "'" ++ type_name value ++ py "' object is not iterable"))
  end.

(** ** check_isbn10_and_isbn13 *)

Definition check_isbn10_and_isbn13 (values : gmap pystr pyval) : result (gmap pystr pyval) :=
  if negb (contains values (py "isbn_10")) && negb (contains values (py "isbn_13")) then
    title ← getitem values (py "title");
    Raise (ISBNMissingError title (py "Must have at least one ISBN."))
  else Ok values.

(** ** pydantic: configuration and fields *)

Inductive Extra := allow | ignore | forbid.

#[global] Instance Extra_eq_dec : EqDecision Extra.
Proof. solve_decision. Defined.

(** The settings of [BaseConfig] that validation, assignment and [dict]
    consult for a model without aliases. *)
Record ModelConfig := {
  extra : Extra;
  allow_mutation : bool;
  frozen : bool;
  validate_all : bool;
  validate_assignment : bool
}.

Definition BaseConfig : ModelConfig :=
  {| extra := ignore; allow_mutation := true; frozen := false;
     validate_all := false; validate_assignment := false |}.

Definition Validator := pyval → result pyval.

Record ModelField := {
  field_name : pystr;
  field_required : bool;
  field_allow_none : bool;
  field_default : pyval;
  field_validate_always : bool;
  field_final : bool;
  field_allow_mutation : bool;
  pre_validators : list Validator;
  validators : list Validator;
  post_validators : list Validator
}.

Definition ROOT_KEY : pystr := py "__root__".

Definition is_None (v : pyval) : bool :=
  match v with PNone => true | _ => false end.

(** [pydantic.validators.str_validator] *)
Definition str_validator (v : pyval) : result pyval :=
  match v with
  | PStr _ => Ok v
  | PFloat _ | PInt _ | PBool _ => s ← str_ v; Ok (PStr s)
  | _ => Raise StrError
  end.

(** [pydantic.validators.float_validator] *)
Definition float_validator (v : pyval) : result pyval :=
  match v with
  | PFloat _ => Ok v
  | _ => match float_ v with
         | Ok x => Ok (PFloat x)
         | Raise e => if is_value_or_type_error e then Raise FloatError else Raise e
         end
  end.

(** [ModelField._apply_validators]: the value and [None], or the value and the
    wrapped error; an exception that is neither a [ValueError] nor a
    [TypeError] is not caught. *)
Fixpoint apply_validators (v : pyval) (loc : pystr) (vs : list Validator)
  : result (pyval * option ErrorWrapper) :=
  match vs with
  | [] => Ok (v, None)
  | validator :: vs' =>
      match validator v with
      | Ok v' => apply_validators v' loc vs'
      | Raise exc =>
          if is_value_or_type_error exc then Ok (v, Some (loc, exc)) else Raise exc
      end
  end.

(** [ModelField.validate], for a field of singleton shape. *)
Definition validate (field : ModelField) (v : pyval) (loc : pystr)
  : result (pyval * option ErrorWrapper) :=
  '(v, errors) ← apply_validators v loc (pre_validators field);
  match errors with
  | Some _ => Ok (v, errors)
  | None =>
      if is_None v then
        if field_allow_none field then
          match post_validators field with
          | [] => Ok (PNone, None)
          | _ => apply_validators v loc (post_validators field)
          end
        else Ok (v, Some (loc, NoneIsNotAllowedError))
      else
        '(v, errors) ← apply_validators v loc (validators field);
        match errors with
        | Some _ => Ok (v, errors)
        | None => apply_validators v loc (post_validators field)
        end
  end.

(** ** pydantic: models *)

Definition RootValidator := gmap pystr pyval → result (gmap pystr pyval).

(** What the metaclass records of a model class. *)
Record ModelClass := {
  __name__ : pystr;
  __config__ : ModelConfig;
  __fields__ : list ModelField;
  __pre_root_validators__ : list RootValidator
}.

(** An instance: the two slots of [BaseModel]. *)
Record BaseModel := {
  __dict__ : gmap pystr pyval;
  __fields_set__ : gset pystr
}.

(** The first loop of [validate_model].  A caught exception ends validation
    with a single error under [ROOT_KEY]. *)
Fixpoint run_pre_root_validators (vs : list RootValidator) (input_data : gmap pystr pyval)
  : result (gmap pystr pyval + exn) :=
  match vs with
  | [] => Ok (inl input_data)
  | validator :: vs' =>
      match validator input_data with
      | Ok input_data' => run_pre_root_validators vs' input_data'
      | Raise exc =>
          if is_value_or_type_error exc
          then Ok (inr (ValidationError [(ROOT_KEY, exc)]))
          else Raise exc
      end
  end.

(** The locals of [validate_model] that its loops update; without aliases
    [names_used] and [fields_set] hold the same names until the extra keys
    are added. *)
Record validation_state := {
  st_values : gmap pystr pyval;
  st_errors : list ErrorWrapper;
  st_fields_set : gset pystr
}.

(** [values = {}], [errors = []], [fields_set = set()] *)
Definition initial_state : validation_state :=
  {| st_values := ∅; st_errors := []; st_fields_set := ∅ |}.

(** One iteration of the loop over [__fields__]. *)
Definition validate_field (config : ModelConfig) (input_data : gmap pystr pyval)
    (st : validation_state) (field : ModelField) : result validation_state :=
  let name := field_name field in
  let run value fields_set :=
    '(v_, errors_) ← validate field value name;
    match errors_ with
    | Some e => Ok {| st_values := st_values st; st_errors := st_errors st ++ [e];
                      st_fields_set := fields_set |}
    | None => Ok {| st_values := <[name := v_]> (st_values st); st_errors := st_errors st;
                    st_fields_set := fields_set |}
    end in
  match input_data !! name with
  | None =>
      if field_required field then
        Ok {| st_values := st_values st; st_errors := st_errors st ++ [(name, MissingError)];
              st_fields_set := st_fields_set st |}
      else
        let value := field_default field in
        if negb (validate_all config) && negb (field_validate_always field) then
          Ok {| st_values := <[name := value]> (st_values st); st_errors := st_errors st;
                st_fields_set := st_fields_set st |}
        else run value (st_fields_set st)
  | Some value => run value ({[name]} ∪ st_fields_set st)
  end.

Fixpoint validate_fields (config : ModelConfig) (input_data : gmap pystr pyval)
    (st : validation_state) (fields : list ModelField) : result validation_state :=
  match fields with
  | [] => Ok st
  | field :: fields' =>
      st' ← validate_field config input_data st field;
      validate_fields config input_data st' fields'
  end.

(** Lexicographic order on code points, the order of [sorted] on strings. *)
Fixpoint str_le (s t : pystr) : bool :=
  match s, t with
  | [], _ => true
  | _ :: _, [] => false
  | a :: s', b :: t' => if a <? b then true else if b <? a then false else str_le s' t'
  end.

(** The keys of the input that no field used, and what [config.extra] makes
    of them. *)
Definition check_extra (config : ModelConfig) (input_data : gmap pystr pyval)
    (st : validation_state) : validation_state :=
  match extra config with
  | ignore => st
  | mode =>
      let extra_ := filter (λ kv, kv.1 ∉ st_fields_set st) input_data in
      if bool_decide (extra_ = ∅) then st
      else
        let fields_set := st_fields_set st ∪ dom extra_ in
        match mode with
        | allow =>
            {| st_values := extra_ ∪ st_values st; st_errors := st_errors st;
               st_fields_set := fields_set |}
        | _ =>
            let sorted := merge_sort (λ s t, Is_true (str_le s t)) (elements (dom extra_)) in
            {| st_values := st_values st;
               st_errors := st_errors st ++ map (λ f, (f, ExtraError)) sorted;
               st_fields_set := fields_set |}
        end
  end.

(** [validate_model]: the values, the names set and the [ValidationError],
    if any.  There is no post root validator to run. *)
Definition validate_model (model : ModelClass) (input_data : gmap pystr pyval)
  : result (gmap pystr pyval * gset pystr * option exn) :=
  r ← run_pre_root_validators (__pre_root_validators__ model) input_data;
  match r with
  | inr validation_error => Ok (∅, ∅, Some validation_error)
  | inl input_data =>
      st ← validate_fields (__config__ model) input_data initial_state (__fields__ model);
      let st := check_extra (__config__ model) input_data st in
      match st_errors st with
      | [] => Ok (st_values st, st_fields_set st, None)
      | errors => Ok (st_values st, st_fields_set st, Some (ValidationError errors))
      end
  end.

(** [BaseModel.__init__]: building an instance from keyword arguments. *)
Definition BaseModel_init (model : ModelClass) (data : gmap pystr pyval) : result BaseModel :=
  '(values, fields_set, validation_error) ← validate_model model data;
  match validation_error with
  | Some e => Raise e
  | None => Ok {| __dict__ := values; __fields_set__ := fields_set |}
  end.

Definition DUNDER_ATTRIBUTES : list pystr :=
  map py ["__annotations__"; "__classcell__"; "__doc__"; "__module__"; "__orig_bases__";
          "__orig_class__"; "__qualname__"; "__firstlineno__"; "__static_attributes__";
          "__classdictcell__"]%string.

Definition get_field (model : ModelClass) (name : pystr) : option ModelField :=
  List.find (λ field, bool_decide (field_name field = name)) (__fields__ model).

(** [BaseModel.__setattr__]: the instance after the statement [self.name =
    value], and the exception it raised, if any.  A model without private
    attributes is assumed, so the first test is on [DUNDER_ATTRIBUTES] alone;
    such a name is set by [object.__setattr__] and lands in [__dict__]. *)
Definition BaseModel_setattr (model : ModelClass) (self : BaseModel)
    (name : pystr) (value : pyval) : BaseModel * option exn :=
  let config := __config__ model in
  let quote := [34] in
  let quoted := quote ++ __name__ model ++ quote in
  let assigned d :=
    {| __dict__ := d; __fields_set__ := {[name]} ∪ __fields_set__ self |} in
  if bool_decide (name ∈ DUNDER_ATTRIBUTES) then
    ({| __dict__ := <[name := value]> (__dict__ self);
        __fields_set__ := __fields_set__ self |}, None)
  else if bool_decide (extra config ≠ allow) && negb (bool_decide (is_Some (get_field model name))) then
    (self, Some (ValueError (quoted ++ py " object has no field " ++ quote ++ name ++ quote)))
  else if negb (allow_mutation config) || frozen config then
    (self, Some (TypeError (quoted ++ py " is immutable and does not support item assignment")))
  else if from_option field_final false (get_field model name) then
    (self, Some (TypeError (quoted ++ py " object " ++ quote ++ name ++ quote
                              ++ py " field is final and does not support reassignment")))
  else if validate_assignment config then
    let new_values := <[name := value]> (__dict__ self) in
    match run_pre_root_validators (__pre_root_validators__ model) new_values with
    | Raise exc => (self, Some exc)
    | Ok (inr validation_error) => (self, Some validation_error)
    | Ok (inl new_values) =>
        match get_field model name with
        | None => (assigned new_values, None)
        | Some known_field =>
            if negb (field_allow_mutation known_field) then
              (self, Some (TypeError (quote ++ name ++ quote
                             ++ py " has allow_mutation set to False and cannot be assigned")))
            else
              match validate known_field value name with
              | Raise exc => (self, Some exc)
              | Ok (_, Some error_) => (self, Some (ValidationError [error_]))
              | Ok (value, None) => (assigned (<[name := value]> new_values), None)
              end
        end
    end
  else (assigned (<[name := value]> (__dict__ self)), None).

(** [BaseModel._calculate_keys], with [exclude_unset=False] and no update. *)
Definition calculate_keys (self : BaseModel) (include exclude : option (gset pystr))
  : option (gset pystr) :=
  match include, exclude with
  | None, None => None
  | _, _ =>
      let keys := dom (__dict__ self) in
      let keys := match include with Some names => keys ∩ names | None => keys end in
      let keys := match exclude with
                  | Some names => if bool_decide (names = ∅) then keys else keys ∖ names
                  | None => keys
                  end in
      Some keys
  end.

(** [BaseModel.dict(include=..., exclude=...)]: the entries of [__dict__]
    whose key is allowed.  The values of a model of scalar fields are returned
    as they are. *)
Definition BaseModel_dict (self : BaseModel) (include exclude : option (gset pystr))
  : gmap pystr pyval :=
  match calculate_keys self include exclude with
  | None => __dict__ self
  | Some allowed_keys => filter (λ kv, kv.1 ∈ allowed_keys) (__dict__ self)
  end.

(** ** The model class Book *)

(** [name: str] and [name: float]: required, [None] not allowed. *)
Definition required_field (name : string) (validator : Validator) : ModelField :=
  {| field_name := py name; field_required := true; field_allow_none := false;
     field_default := PNone; field_validate_always := false; field_final := false;
     field_allow_mutation := true;
     pre_validators := []; validators := [validator]; post_validators := [] |}.

(** [name: Optional[str]]: not required, default [None], [None] allowed.  A
    validator declared with [@pydantic.validator(name)] applies to the whole
    value after the field's own validators, so it is a post validator. *)
Definition optional_field (name : string) (class_validators : list Validator) : ModelField :=
  {| field_name := py name; field_required := false; field_allow_none := true;
     field_default := PNone; field_validate_always := false; field_final := false;
     field_allow_mutation := true;
     pre_validators := []; validators := [str_validator];
     post_validators := class_validators |}.

(** [class Config]: [allow_mutation = False], the rest inherited. *)
Definition Config : ModelConfig :=
  {| extra := extra BaseConfig; allow_mutation := false; frozen := frozen BaseConfig;
     validate_all := validate_all BaseConfig;
     validate_assignment := validate_assignment BaseConfig |}.

Definition Book : ModelClass :=
  {| __name__ := py "Book";
     __config__ := Config;
     __fields__ :=
       [ required_field "title" str_validator;
         required_field "author" str_validator;
         required_field "publisher" str_validator;
         required_field "price" float_validator;
         optional_field "isbn_10" [isbn_10_validator];
         optional_field "isbn_13" [];
         optional_field "subtitle" [] ];
     __pre_root_validators__ := [check_isbn10_and_isbn13] |}.

(** ** main *)

(** [self.name], for a name that is no attribute of the class: the entry of
    [__dict__]. *)
Definition BaseModel_getattr (model : ModelClass) (self : BaseModel) (name : pystr)
  : result pyval :=
  match __dict__ self !! name with
  | Some v => Ok v
  | None =>
      Raise (AttributeError (py "'" ++ __name__ model ++ py "' object has no attribute '"
                               ++ name ++ py "'"))
  end.

(** [main], from the parsed document on: the three values it prints. *)
Definition main (data : list (gmap pystr pyval))
  : result (pyval * gmap pystr pyval * gmap pystr pyval) :=
  books ← mapM (BaseModel_init Book) data;
  match books with
  | [] => Raise (IndexError (py "list index out of range"))
  | book :: _ =>
      author ← BaseModel_getattr Book book (py "author");
      let names : gset pystr := {[py "title"; py "author"]} in
      Ok (author, BaseModel_dict book (Some names) None, BaseModel_dict book None (Some names))
  end.

End Program.

(** ** A runtime to run records on

    [sample] follows CPython 3.11 where it is defined: ASCII, the
    Arabic-Indic digits U+0660..U+0669 (decimal digits, which [int] accepts)
    and SUPERSCRIPT TWO U+00B2 (a digit that [int] rejects) for the Unicode
    tables; [float] of a float, a bool or an int (rounded to nearest even,
    [OverflowError] beyond the range); [str] of a bool or an int (up to the
    4300 digits of the conversion limit).  Parsing a float from a string and
    printing a float are left out: both raise [ValueError] here. *)

Definition arabic_indic_digit (c : N) : bool := (1632 <=? c) && (c <=? 1641).

Definition sample_isdigit (c : N) : bool :=
  ascii_digit c || arabic_indic_digit c || (c =? 178).

Definition sample_int_char (c : N) : option Z :=
  if ascii_digit c then Some (Z.of_N c - 48)%Z
  else if arabic_indic_digit c then Some (Z.of_N c - 1632)%Z
  else None.

Definition float_of_Z (n : Z) : result spec_float :=
  match binary_normalize 53 1024 n 0 false with
  | S754_infinity _ => Raise (OverflowError (py "int too large to convert to float"))
  | x => Ok x
  end.

Definition sample_float (v : pyval) : result spec_float :=
  match v with
  | PFloat x => Ok x
  | PBool b => float_of_Z (if b then 1 else 0)
  | PInt n => float_of_Z n
  | PStr _ => Raise (ValueError (py "could not convert string to float"))
  | _ => Raise (TypeError (py "float() argument must be a string or a real number, not '"
                             ++ type_name v ++ py "'"))
  end.

Definition sample_str (v : pyval) : result pystr :=
  match v with
  | PStr s => Ok s
  | PNone => Ok (py "None")
  | PBool b => Ok (py (if b then "True" else "False"))
  | PInt n =>
      if (4300 <? length (py (NilZero.string_of_int (Z.to_int (Z.abs n)))))%nat
      then Raise (ValueError (py "Exceeds the limit (4300 digits) for integer string conversion"))
      else Ok (py (NilZero.string_of_int (Z.to_int n)))
  | _ => Raise (ValueError (py "not covered"))
  end.

Lemma sample_isdigit_ascii c : c < 128 → sample_isdigit c = ascii_digit c.
Proof.
  intros Hc. unfold sample_isdigit, arabic_indic_digit.
  destruct (ascii_digit c); [done|]. simpl.
  apply orb_false_intro; [apply andb_false_intro1|]; apply N.leb_gt || apply N.eqb_neq; lia.
Qed.

Lemma sample_int_char_ascii c :
  ascii_digit c = true → sample_int_char c = Some (Z.of_N c - 48)%Z.
Proof. intros Hc. unfold sample_int_char. by rewrite Hc. Qed.

Definition sample : Builtins :=
  {| isdigit := sample_isdigit; int_char := sample_int_char;
     float_ := sample_float; str_ := sample_str;
     isdigit_ascii := sample_isdigit_ascii; int_char_ascii := sample_int_char_ascii |}.

(** ** The checksum in the words of the specification

    For position [i], counted from [0], the weight is [10 - i]; the sum runs
    over the integer values of the characters. *)
Fixpoint checksum_from (i : Z) (values : list Z) : Z :=
  match values with
  | [] => 0
  | v :: values' => (10 - i) * v + checksum_from (i + 1) values'
  end%Z.
Definition checksum (values : list Z) : Z := checksum_from 0 values.

(** An ASCII digit or the letter X in either case, and the integer it stands
    for. *)
Definition isbn_char (c : N) : bool := ascii_digit c || in_Xx c.
Definition isbn_value (c : N) : Z := if in_Xx c then 10%Z else (Z.of_N c - 48)%Z.

(** ** Records, in the words of the specification *)

Section Records.
Context {rt : Builtins}.

(** The names [Book] declares, in the order of declaration. *)
Definition Book_fields : list pystr :=
  map py ["title"; "author"; "publisher"; "price"; "isbn_10"; "isbn_13"; "subtitle"]%string.

(** The attributes of a validated [Book]. *)
Definition Book_dict (title author publisher price isbn_10 isbn_13 subtitle : pyval)
  : gmap pystr pyval :=
  <[py "subtitle" := subtitle]> (<[py "isbn_13" := isbn_13]> (<[py "isbn_10" := isbn_10]>
  (<[py "price" := price]> (<[py "publisher" := publisher]> (<[py "author" := author]>
  (<[py "title" := title]> ∅)))))).

(** A required field is well typed: present, not null, and converted to [v']
    by the validator of its declared type. *)
Definition well_typed (validator : Validator) (raw : gmap pystr pyval) (name : string)
    (v' : pyval) : Prop :=
  ∃ v, raw !! py name = Some v ∧ v ≠ PNone ∧ validator v = Ok v'.

(** An optional text field is absent or null, which leaves [None], or is
    converted to text. *)
Definition optional_text (raw : gmap pystr pyval) (name : string) (v' : pyval) : Prop :=
  match raw !! py name with
  | None | Some PNone => v' = PNone
  | Some v => str_validator v = Ok v'
  end.

(** [isbn_10] is absent, or is converted to a text that [isbn_10_validator]
    returns. *)
Definition valid_isbn_10 (raw : gmap pystr pyval) (v' : pyval) : Prop :=
  match raw !! py "isbn_10" with
  | None => v' = PNone
  | Some v => ∃ s, str_validator v = Ok s ∧ isbn_10_validator s = Ok v'
  end.

(** The validator of a field's type raises nothing that pydantic lets
    through, whatever the record holds under [name]. *)
Definition quiet (validator : Validator) (raw : gmap pystr pyval) (name : string) : Prop :=
  ∀ v e, raw !! py name = Some v → validator v = Raise e → is_value_or_type_error e = true.

End Records.

(** ** Records to run *)

(** 39.5 as a binary64 *)
Definition price_39_5 : spec_float := S754_finite false 5559130790035456 (-47).

(** A record with the four required fields and the given [isbn_10]. *)
Definition book_record (isbn_10 : pyval) : gmap pystr pyval :=
  {[ py "title" := PStr (py "Introduction to Graph Theory");
     py "author" := PStr (py "Robin J. Wilson");
     py "publisher" := PStr (py "Wiley");
     py "price" := PFloat price_39_5;
     py "isbn_10" := isbn_10 ]}.

(** The [Book] it becomes when [isbn_10] is accepted. *)
Definition book_values (isbn_10 : pyval) : gmap pystr pyval :=
  Book_dict (PStr (py "Introduction to Graph Theory")) (PStr (py "Robin J. Wilson"))
            (PStr (py "Wiley")) (PFloat price_39_5) isbn_10 PNone PNone.

(** Both identifier keys present, both null. *)
Definition both_null_record : gmap pystr pyval :=
  <[py "isbn_13" := PNone]> (book_record PNone).

(** A null [isbn_10] beside an [isbn_13]. *)
Definition null_isbn_10_record : gmap pystr pyval :=
  <[py "isbn_13" := PStr (py "9780471958697")]> (book_record PNone).

(** No identifier key. *)
Definition no_identifier_record : gmap pystr pyval :=
  {[ py "title" := PStr (py "Introduction to Graph Theory");
     py "author" := PStr (py "Robin J. Wilson");
     py "publisher" := PStr (py "Wiley");
     py "price" := PFloat price_39_5 ]}.

(** No identifier key and no title. *)
Definition no_title_record : gmap pystr pyval :=
  {[ py "author" := PStr (py "Robin J. Wilson");
     py "publisher" := PStr (py "Wiley");
     py "price" := PFloat price_39_5 ]}.


(** The message of [__setattr__] on an immutable model. *)
Definition immutable_message : pystr :=
  [34] ++ py "Book" ++ [34] ++ py " is immutable and does not support item assignment".

(** * Properties *)

Section Properties.
Context {rt : Builtins}.

Local Arguments py : simpl never.

(** ** Characters and their values *)

Lemma ascii_digit_spec c : ascii_digit c = true ↔ 48 ≤ c ≤ 57.
Proof. unfold ascii_digit. rewrite andb_true_iff, !N.leb_le. done. Qed.

Lemma in_Xx_spec c : in_Xx c = true ↔ c = 88 ∨ c = 120.
Proof. unfold in_Xx. rewrite orb_true_iff, !N.eqb_eq. done. Qed.

Lemma kept_ascii c : c < 128 → isdigit c || in_Xx c = isbn_char c.
Proof. intros Hc. unfold isbn_char. by rewrite isdigit_ascii. Qed.

Lemma char_to_int_Xx c : in_Xx c = true → char_to_int c = Ok 10%Z.
Proof. intros Hc. unfold char_to_int. by rewrite Hc. Qed.

Lemma char_to_int_digit c : ascii_digit c = true → char_to_int c = Ok (Z.of_N c - 48)%Z.
Proof.
  intros Hc. unfold char_to_int.
  assert (in_Xx c = false) as ->.
  { apply not_true_is_false. rewrite in_Xx_spec. apply ascii_digit_spec in Hc. lia. }
  by rewrite int_char_ascii.
Qed.

Lemma char_to_int_isbn_char c : isbn_char c = true → char_to_int c = Ok (isbn_value c).
Proof.
  unfold isbn_char, isbn_value. intros Hc.
  destruct (in_Xx c) eqn:HX; [by apply char_to_int_Xx|].
  rewrite orb_false_r in Hc. by apply char_to_int_digit.
Qed.

Lemma mapM_char_to_int_isbn chars :
  Forall (λ c, isbn_char c = true) chars → mapM char_to_int chars = Ok (map isbn_value chars).
Proof.
  induction 1 as [|c chars Hc _ IH]; [done|].
  cbn [mapM map]. rewrite char_to_int_isbn_char by done. cbn. by rewrite IH.
Qed.

(** ** The filter *)

Lemma isbn_chars_ascii value :
  Forall (λ c, c < 128) value → isbn_chars value = List.filter isbn_char value.
Proof.
  intros Hv. unfold isbn_chars. apply filter_ext_in. intros c Hc.
  apply kept_ascii. rewrite Forall_forall in Hv. apply Hv. by apply list_elem_of_In.
Qed.

Lemma isbn_chars_idemp value : isbn_chars (isbn_chars value) = isbn_chars value.
Proof.
  unfold isbn_chars. induction value as [|c value IH]; [done|].
  cbn. destruct (isdigit c || in_Xx c) eqn:Hc; [|done].
  cbn. by rewrite Hc, IH.
Qed.

Lemma isbn_chars_sublist value : isbn_chars value `sublist_of` value.
Proof.
  unfold isbn_chars. induction value as [|c value IH]; [constructor|].
  cbn. destruct (isdigit c || in_Xx c); [by apply sublist_skip|by apply sublist_cons].
Qed.

(** ** The weighted sum *)

Lemma weighted_sum_raise e l :
  fold_left (λ acc '(i, x), s ← acc; n ← char_to_int x; Ok (s + (10 - i) * n)%Z)
            l (Raise e) = Raise e.
Proof. induction l as [|[i x] l IH]; [done|]. cbn. apply IH. Qed.

Lemma weighted_sum_from i acc chars :
  fold_left (λ acc '(i, x), s ← acc; n ← char_to_int x; Ok (s + (10 - i) * n)%Z)
            (enumerate_from i chars) (Ok acc)
  = values ← mapM char_to_int chars; Ok (acc + checksum_from i values)%Z.
Proof.
  revert i acc. induction chars as [|c chars IH]; intros i acc.
  { cbn. f_equal. lia. }
  cbn [enumerate_from fold_left mapM]. cbn.
  destruct (char_to_int c) as [n|e]; cbn.
  - rewrite IH. destruct (mapM char_to_int chars) as [values|e]; cbn; [|done].
    f_equal. lia.
  - apply weighted_sum_raise.
Qed.

Lemma weighted_sum_spec chars :
  weighted_sum chars = values ← mapM char_to_int chars; Ok (checksum values).
Proof.
  unfold weighted_sum, enumerate. rewrite weighted_sum_from.
  by destruct (mapM char_to_int chars).
Qed.

Lemma char_to_int_raises c e : char_to_int c = Raise e → ∃ message, e = ValueError message.
Proof.
  unfold char_to_int. destruct (in_Xx c); [done|].
  destruct (int_char c); [done|]. intros [= <-]. eauto.
Qed.

Lemma weighted_sum_raises chars e :
  weighted_sum chars = Raise e → ∃ message, e = ValueError message.
Proof.
  rewrite weighted_sum_spec.
  induction chars as [|c chars IH]; [done|].
  cbn [mapM]. destruct (char_to_int c) as [n|e'] eqn:Hc; cbn.
  - destruct (mapM char_to_int chars); cbn; [done|]. intros H. by apply IH.
  - intros [= <-]. by eapply char_to_int_raises.
Qed.

Lemma isbn_10_validator_spec value values :
  length (isbn_chars value) = 10%nat →
  mapM char_to_int (isbn_chars value) = Ok values →
  isbn_10_validator (PStr value) =
    if (checksum values mod 11 =? 0)%Z then Ok (PStr value)
    else Raise (ISBN10FormatError value (py "ISBN-10 weighted sum must be divisible by 11.")).
Proof.
  intros Hlen Hvalues. unfold isbn_10_validator. cbn zeta.
  rewrite Hlen, weighted_sum_spec, Hvalues. cbn.
  by destruct (checksum values mod 11 =? 0)%Z.
Qed.

(** ** Field validation *)

Lemma str_validator_str v v' : str_validator v = Ok v' → ∃ s, v' = PStr s.
Proof.
  destruct v; cbn; try done.
  - destruct (str_ _); cbn; [|done]. intros [= <-]. eauto.
  - destruct (str_ _); cbn; [|done]. intros [= <-]. eauto.
  - destruct (str_ _); cbn; [|done]. intros [= <-]. eauto.
  - intros [= <-]. eauto.
Qed.

Lemma str_validator_not_None v v' : str_validator v = Ok v' → is_None v = false.
Proof. by destruct v. Qed.

Lemma is_None_false v : v ≠ PNone → is_None v = false.
Proof. by destruct v. Qed.

Lemma validate_required name validator v loc :
  is_None v = false →
  validate (required_field name validator) v loc =
    match validator v with
    | Ok v' => Ok (v', None)
    | Raise e => if is_value_or_type_error e then Ok (v, Some (loc, e)) else Raise e
    end.
Proof.
  intros Hv. unfold validate. cbn. rewrite Hv.
  destruct (validator v) as [v'|e]; [done|]. by destruct (is_value_or_type_error e).
Qed.

Lemma validate_optional_None name loc :
  validate (optional_field name []) PNone loc = Ok (PNone, None).
Proof. done. Qed.

Lemma validate_optional name posts v loc :
  is_None v = false →
  validate (optional_field name posts) v loc =
    match str_validator v with
    | Ok v' => apply_validators v' loc posts
    | Raise e => if is_value_or_type_error e then Ok (v, Some (loc, e)) else Raise e
    end.
Proof.
  intros Hv. unfold validate. cbn. rewrite Hv.
  destruct (str_validator v) as [v'|e]; [done|]. by destruct (is_value_or_type_error e).
Qed.

(** ** The loop over the fields *)

Lemma validate_field_present config raw st field v :
  raw !! field_name field = Some v →
  validate_field config raw st field =
    '(v_, errors_) ← validate field v (field_name field);
    match errors_ with
    | Some e => Ok {| st_values := st_values st; st_errors := st_errors st ++ [e];
                      st_fields_set := {[field_name field]} ∪ st_fields_set st |}
    | None => Ok {| st_values := <[field_name field := v_]> (st_values st);
                    st_errors := st_errors st;
                    st_fields_set := {[field_name field]} ∪ st_fields_set st |}
    end.
Proof. intros Hv. unfold validate_field. by rewrite Hv. Qed.

Lemma validate_field_absent raw st field :
  raw !! field_name field = None →
  field_required field = false → field_validate_always field = false →
  validate_field Config raw st field =
    Ok {| st_values := <[field_name field := field_default field]> (st_values st);
          st_errors := st_errors st; st_fields_set := st_fields_set st |}.
Proof. intros Hv Hr Ha. unfold validate_field. by rewrite Hv, Hr, Ha. Qed.



(** A field that validation gets past either stores a value or records an
    error. *)
Lemma validate_field_inv config raw st field st' :
  validate_field config raw st field = Ok st' →
  (∃ v, st_values st' = <[field_name field := v]> (st_values st)
        ∧ st_errors st' = st_errors st)
  ∨ (st_values st' = st_values st ∧ ∃ e, st_errors st' = st_errors st ++ [e]).
Proof.
  unfold validate_field.
  destruct (raw !! field_name field) as [v|].
  - destruct (validate field v (field_name field)) as [[v_ [e|]]|]; cbn; [| |done].
    + intros [= <-]. right. cbn. eauto.
    + intros [= <-]. left. cbn. eauto.
  - destruct (field_required field).
    { intros [= <-]. right. cbn. eauto. }
    destruct (negb (validate_all config) && negb (field_validate_always field)).
    { intros [= <-]. left. cbn. eauto. }
    destruct (validate field _ (field_name field)) as [[v_ [e|]]|]; cbn; [| |done].
    + intros [= <-]. right. cbn. eauto.
    + intros [= <-]. left. cbn. eauto.
Qed.

Lemma validate_fields_errors config raw st fields st' :
  validate_fields config raw st fields = Ok st' →
  st_errors st ≠ [] → st_errors st' ≠ [].
Proof.
  revert st. induction fields as [|field fields IH]; intros st; cbn.
  { by intros [= <-]. }
  destruct (validate_field config raw st field) as [st1|] eqn:H1; cbn; [|done].
  intros H Hne. apply (IH _ H).
  destruct (validate_field_inv _ _ _ _ _ H1) as [(v & _ & ->)|(_ & e & ->)]; [done|].
  by destruct (st_errors st).
Qed.

Lemma validate_fields_dom config raw st fields st' :
  validate_fields config raw st fields = Ok st' →
  st_errors st' = [] →
  dom (st_values st') = dom (st_values st) ∪ list_to_set (field_name <$> fields).
Proof.
  revert st. induction fields as [|field fields IH]; intros st; cbn.
  { intros [= <-] _. set_solver. }
  destruct (validate_field config raw st field) as [st1|] eqn:H1; cbn; [|done].
  intros H Hnil. rewrite (IH _ H Hnil).
  destruct (validate_field_inv _ _ _ _ _ H1) as [(v & -> & _)|(_ & e & He)].
  - rewrite dom_insert_L. set_solver.
  - exfalso. apply (validate_fields_errors _ _ _ _ _ H); [|done].
    rewrite He. by destruct (st_errors st).
Qed.

(** ** The presence check *)

Lemma contains_true values key v : values !! key = Some v → contains values key = true.
Proof. intros H. unfold contains. rewrite H. by apply bool_decide_eq_true. Qed.

Lemma contains_false values key : values !! key = None → contains values key = false.
Proof.
  intros H. unfold contains. rewrite H. apply bool_decide_eq_false. by intros [? ?].
Qed.

Lemma check_present raw :
  is_Some (raw !! py "isbn_10") ∨ is_Some (raw !! py "isbn_13") →
  check_isbn10_and_isbn13 raw = Ok raw.
Proof.
  unfold check_isbn10_and_isbn13.
  intros [[v H]|[v H]]; rewrite (contains_true _ _ _ H); cbn; [done|].
  by rewrite andb_false_r.
Qed.

(** ** Building a Book *)

Lemma Book_init_checked raw :
  check_isbn10_and_isbn13 raw = Ok raw →
  BaseModel_init Book raw =
    st ← validate_fields Config raw initial_state (__fields__ Book);
    match st_errors st with
    | [] => Ok {| __dict__ := st_values st; __fields_set__ := st_fields_set st |}
    | errors => Raise (ValidationError errors)
    end.
Proof.
  intros Hcheck. unfold BaseModel_init, validate_model.
  cbn [__pre_root_validators__ Book run_pre_root_validators].
  rewrite Hcheck. cbn [mbind result_bind].
  change (__config__ Book) with Config.
  destruct (validate_fields Config raw initial_state _) as [st|e]; [|done].
  cbn. by destruct (st_errors st).
Qed.

Lemma Book_init_raise raw e :
  check_isbn10_and_isbn13 raw = Raise e → is_value_or_type_error e = false →
  BaseModel_init Book raw = Raise e.
Proof.
  intros Hcheck He. unfold BaseModel_init, validate_model.
  cbn [__pre_root_validators__ Book run_pre_root_validators].
  by rewrite Hcheck, He.
Qed.

Lemma step_required name validator raw st v' :
  well_typed validator raw name v' →
  validate_field Config raw st (required_field name validator) =
    Ok {| st_values := <[py name := v']> (st_values st); st_errors := st_errors st;
          st_fields_set := {[py name]} ∪ st_fields_set st |}.
Proof.
  intros (v & Hv & Hnone & Hok).
  rewrite (validate_field_present _ _ _ _ v) by done.
  rewrite validate_required by by apply is_None_false.
  by rewrite Hok.
Qed.

Lemma step_optional_text name raw st v' :
  optional_text raw name v' →
  ∃ fs, validate_field Config raw st (optional_field name []) =
    Ok {| st_values := <[py name := v']> (st_values st); st_errors := st_errors st;
          st_fields_set := fs |}.
Proof.
  unfold optional_text. destruct (raw !! py name) as [v|] eqn:Hv.
  - eexists. rewrite (validate_field_present _ _ _ _ v) by done.
    destruct (is_None v) eqn:Hn.
    + destruct v; try done. subst v'. by rewrite validate_optional_None.
    + assert (str_validator v = Ok v') as Hok by by destruct v.
      rewrite validate_optional, Hok by done. done.
  - intros ->. eexists. by rewrite validate_field_absent.
Qed.

Lemma step_isbn_10 raw st v' :
  valid_isbn_10 raw v' →
  ∃ fs, validate_field Config raw st (optional_field "isbn_10" [isbn_10_validator]) =
    Ok {| st_values := <[py "isbn_10" := v']> (st_values st); st_errors := st_errors st;
          st_fields_set := fs |}.
Proof.
  unfold valid_isbn_10. destruct (raw !! py "isbn_10") as [v|] eqn:Hv.
  - intros (s & Hs & Hok). eexists.
    rewrite (validate_field_present _ _ _ _ v) by done.
    rewrite validate_optional, Hs by by eapply str_validator_not_None.
    cbn. by rewrite Hok.
  - intros ->. eexists. by rewrite validate_field_absent.
Qed.

(** A record that passes the presence check and whose fields are all
    accepted becomes a [Book] with the converted values. *)
Lemma Book_init_accepts raw title author publisher price isbn_10 isbn_13 subtitle :
  is_Some (raw !! py "isbn_10") ∨ is_Some (raw !! py "isbn_13") →
  well_typed str_validator raw "title" title →
  well_typed str_validator raw "author" author →
  well_typed str_validator raw "publisher" publisher →
  well_typed float_validator raw "price" price →
  valid_isbn_10 raw isbn_10 →
  optional_text raw "isbn_13" isbn_13 →
  optional_text raw "subtitle" subtitle →
  ∃ fields_set, BaseModel_init Book raw =
    Ok {| __dict__ := Book_dict title author publisher price isbn_10 isbn_13 subtitle;
          __fields_set__ := fields_set |}.
Proof.
  intros Hid Ht Ha Hp Hpr H10 H13 Hsub.
  rewrite Book_init_checked by by apply check_present.
  cbn [__fields__ Book validate_fields].
  rewrite (step_required _ _ _ _ _ Ht). cbn [mbind result_bind].
  rewrite (step_required _ _ _ _ _ Ha). cbn [mbind result_bind].
  rewrite (step_required _ _ _ _ _ Hp). cbn [mbind result_bind].
  rewrite (step_required _ _ _ _ _ Hpr). cbn [mbind result_bind].
  edestruct (step_isbn_10 raw) as [fs1 ->]; [done|]. cbn [mbind result_bind].
  edestruct (step_optional_text "isbn_13" raw) as [fs2 ->]; [done|]. cbn [mbind result_bind].
  edestruct (step_optional_text "subtitle" raw) as [fs3 ->]; [done|]. cbn [mbind result_bind].
  cbn. by eexists.
Qed.

(** The whole of [Book(...)], with the machinery of pydantic unfolded. *)
Lemma Book_init_unfold raw :
  BaseModel_init Book raw =
    if negb (contains raw (py "isbn_10")) && negb (contains raw (py "isbn_13")) then
      match raw !! py "title" with
      | Some title => Raise (ISBNMissingError title (py "Must have at least one ISBN."))
      | None => Raise (KeyError (py "title"))
      end
    else
      st ← validate_fields Config raw initial_state (__fields__ Book);
      match st_errors st with
      | [] => Ok {| __dict__ := st_values st; __fields_set__ := st_fields_set st |}
      | errors => Raise (ValidationError errors)
      end.
Proof.
  destruct (negb (contains raw (py "isbn_10")) && negb (contains raw (py "isbn_13"))) eqn:Hc.
  - destruct (raw !! py "title") as [title|] eqn:Ht.
    + apply Book_init_raise; [|done].
      unfold check_isbn10_and_isbn13, getitem. by rewrite Hc, Ht.
    + apply Book_init_raise; [|done].
      unfold check_isbn10_and_isbn13, getitem. by rewrite Hc, Ht.
  - apply Book_init_checked. unfold check_isbn10_and_isbn13. by rewrite Hc.
Qed.

Lemma Book_init_inv raw b :
  BaseModel_init Book raw = Ok b →
  ∃ st, validate_fields Config raw initial_state (__fields__ Book) = Ok st
        ∧ st_errors st = []
        ∧ b = {| __dict__ := st_values st; __fields_set__ := st_fields_set st |}.
Proof.
  rewrite Book_init_unfold.
  destruct (negb _ && negb _); [by destruct (raw !! py "title")|].
  destruct (validate_fields _ _ _ _) as [st|]; cbn; [|done].
  destruct (st_errors st) eqn:He; [|done]. intros [= <-]. eauto.
Qed.

Lemma Book_field_names : field_name <$> __fields__ Book = Book_fields.
Proof. done. Qed.

Lemma Book_init_dom raw b :
  BaseModel_init Book raw = Ok b → dom (__dict__ b) = list_to_set Book_fields.
Proof.
  intros (st & Hst & Herr & ->)%Book_init_inv. cbn [__dict__].
  rewrite (validate_fields_dom _ _ _ _ _ Hst Herr), Book_field_names.
  cbn [st_values initial_state]. rewrite dom_empty_L. set_solver.
Qed.


(** ** Exceptions that pass through *)

Lemma step_required_quiet name validator raw st :
  quiet validator raw name →
  ∃ st', validate_field Config raw st (required_field name validator) = Ok st'.
Proof.
  intros Hq. destruct (raw !! py name) as [v|] eqn:Hv.
  - rewrite (validate_field_present _ _ _ _ v) by done.
    destruct (is_None v) eqn:Hn.
    { destruct v; try done. cbn. eauto. }
    rewrite validate_required by done.
    destruct (validator v) as [v'|e] eqn:Hval; cbn; [eauto|].
    rewrite (Hq _ _ Hv Hval). cbn. eauto.
  - unfold validate_field. cbn [field_name required_field field_required].
    rewrite Hv. eauto.
Qed.

Lemma Book_isbn_10_raises raw v s e :
  quiet str_validator raw "title" →
  quiet str_validator raw "author" →
  quiet str_validator raw "publisher" →
  quiet float_validator raw "price" →
  raw !! py "isbn_10" = Some v →
  str_validator v = Ok s →
  isbn_10_validator s = Raise e →
  is_value_or_type_error e = false →
  BaseModel_init Book raw = Raise e.
Proof.
  intros Ht Ha Hp Hpr Hv Hs Hraise He.
  rewrite Book_init_checked by (apply check_present; eauto).
  cbn [__fields__ Book validate_fields].
  destruct (step_required_quiet _ _ _ initial_state Ht) as [st1 ->]. cbn [mbind result_bind].
  destruct (step_required_quiet _ _ _ st1 Ha) as [st2 ->]. cbn [mbind result_bind].
  destruct (step_required_quiet _ _ _ st2 Hp) as [st3 ->]. cbn [mbind result_bind].
  destruct (step_required_quiet _ _ _ st3 Hpr) as [st4 ->]. cbn [mbind result_bind].
  rewrite (validate_field_present _ _ _ _ v) by done.
  rewrite validate_optional, Hs by by eapply str_validator_not_None.
  cbn. by rewrite Hraise, He.
Qed.

(** A null [isbn_10] reaches [isbn_10_validator], whose [TypeError] pydantic
    records: no [Book] comes out. *)
Lemma Book_null_isbn_10 raw b :
  raw !! py "isbn_10" = Some PNone → BaseModel_init Book raw ≠ Ok b.
Proof.
  intros Hv (st & Hst & Herr & _)%Book_init_inv.
  change (__fields__ Book) with
    ([required_field "title" str_validator; required_field "author" str_validator;
      required_field "publisher" str_validator; required_field "price" float_validator]
     ++ optional_field "isbn_10" [isbn_10_validator]
     :: [optional_field "isbn_13" []; optional_field "subtitle" []]) in Hst.
  assert (∀ l l' st0 st, validate_fields Config raw st0
            (l ++ optional_field "isbn_10" [isbn_10_validator] :: l') = Ok st →
          st_errors st ≠ []) as Hgen; [|by eapply Hgen].
  clear -Hv. intros l l'. induction l as [|field l IH]; intros st0 st.
  - cbn [app validate_fields].
    rewrite (validate_field_present _ _ _ _ PNone) by done.
    cbn [validate optional_field pre_validators apply_validators mbind result_bind
         is_None field_allow_none post_validators isbn_10_validator is_value_or_type_error].
    intros Hst. apply (validate_fields_errors _ _ _ _ _ Hst). cbn.
    by destruct (st_errors st0).
  - cbn [app validate_fields].
    destruct (validate_field Config raw st0 field) as [st1|]; cbn; [apply IH|done].
Qed.

(** ** Running the fixtures *)

Lemma book_record_lookups v :
  book_record v !! py "title" = Some (PStr (py "Introduction to Graph Theory"))
  ∧ book_record v !! py "author" = Some (PStr (py "Robin J. Wilson"))
  ∧ book_record v !! py "publisher" = Some (PStr (py "Wiley"))
  ∧ book_record v !! py "price" = Some (PFloat price_39_5)
  ∧ book_record v !! py "isbn_10" = Some v
  ∧ book_record v !! py "isbn_13" = None
  ∧ book_record v !! py "subtitle" = None.
Proof. repeat split; vm_compute; reflexivity. Qed.

Lemma book_record_quiet v :
  quiet str_validator (book_record v) "title"
  ∧ quiet str_validator (book_record v) "author"
  ∧ quiet str_validator (book_record v) "publisher"
  ∧ quiet float_validator (book_record v) "price".
Proof.
  destruct (book_record_lookups v) as (Ht & Ha & Hp & Hpr & _).
  unfold quiet. rewrite Ht, Ha, Hp, Hpr.
  repeat split; intros ? ? [= <-]; done.
Qed.

Lemma book_record_accepted s v' :
  isbn_10_validator (PStr s) = Ok v' →
  ∃ fields_set, BaseModel_init Book (book_record (PStr s)) =
    Ok {| __dict__ := book_values v'; __fields_set__ := fields_set |}.
Proof.
  intros Hok. destruct (book_record_lookups (PStr s)) as (Ht & Ha & Hp & Hpr & H10 & H13 & Hs).
  apply Book_init_accepts.
  - left. rewrite H10. eauto.
  - by exists (PStr (py "Introduction to Graph Theory")).
  - by exists (PStr (py "Robin J. Wilson")).
  - by exists (PStr (py "Wiley")).
  - by exists (PFloat price_39_5).
  - unfold valid_isbn_10. rewrite H10. by exists (PStr s).
  - unfold optional_text. by rewrite H13.
  - unfold optional_text. by rewrite Hs.
Qed.

Lemma book_record_raises s e :
  isbn_10_validator (PStr s) = Raise e → is_value_or_type_error e = false →
  BaseModel_init Book (book_record (PStr s)) = Raise e.
Proof.
  intros Hraise He. destruct (book_record_quiet (PStr s)) as (Ht & Ha & Hp & Hpr).
  destruct (book_record_lookups (PStr s)) as (_ & _ & _ & _ & H10 & _).
  by eapply Book_isbn_10_raises.
Qed.

(** On an ASCII string the validator is a computation on the string alone. *)
Lemma isbn_10_validator_ascii value :
  forallb (λ c, c <? 128) value = true →
  length (List.filter isbn_char value) = 10%nat →
  isbn_10_validator (PStr value) =
    if (checksum (map isbn_value (List.filter isbn_char value)) mod 11 =? 0)%Z
    then Ok (PStr value)
    else Raise (ISBN10FormatError value (py "ISBN-10 weighted sum must be divisible by 11.")).
Proof.
  intros Hascii Hlen.
  assert (isbn_chars value = List.filter isbn_char value) as Hchars.
  { apply isbn_chars_ascii. rewrite Forall_forall. intros c Hc.
    rewrite forallb_forall in Hascii. apply N.ltb_lt, Hascii. by apply list_elem_of_In. }
  apply isbn_10_validator_spec; rewrite Hchars; [done|].
  apply mapM_char_to_int_isbn. rewrite Forall_forall. intros c Hc.
  apply list_elem_of_In, filter_In in Hc. tauto.
Qed.

(** * The claims *)

(** C1.  The ISBN-10 checksum.  [char_to_int] maps X and x to 10 and an
    ASCII digit to its numeric value; on a filtered sequence of 10 characters
    with integer values [values], [weighted_sum] is the sum of
    [(10 - i) * values[i]] over the positions [i = 0..9], and the validator
    accepts exactly when that sum is divisible by 11.  A record with
    [isbn_10 = "0471958697"] becomes a [Book], one with ["0471958698"] raises
    [ISBN10FormatError], and one with ["155404295X"] becomes a [Book]. *)
Theorem isbn_10_checksum :
  (∀ c, in_Xx c = true → char_to_int c = Ok 10%Z)
  ∧ (∀ c, ascii_digit c = true → char_to_int c = Ok (Z.of_N c - 48)%Z)
  ∧ (∀ v0 v1 v2 v3 v4 v5 v6 v7 v8 v9,
       checksum [v0; v1; v2; v3; v4; v5; v6; v7; v8; v9]
       = (10 * v0 + 9 * v1 + 8 * v2 + 7 * v3 + 6 * v4
          + 5 * v5 + 4 * v6 + 3 * v7 + 2 * v8 + 1 * v9)%Z)
  ∧ (∀ value values,
       length (isbn_chars value) = 10%nat →
       mapM char_to_int (isbn_chars value) = Ok values →
       weighted_sum (isbn_chars value) = Ok (checksum values)
       ∧ (isbn_10_validator (PStr value) = Ok (PStr value)
          ↔ (checksum values mod 11 = 0)%Z))
  ∧ (∃ fields_set, BaseModel_init Book (book_record (PStr (py "0471958697"))) =
       Ok {| __dict__ := book_values (PStr (py "0471958697"));
             __fields_set__ := fields_set |})
  ∧ BaseModel_init Book (book_record (PStr (py "0471958698"))) =
      Raise (ISBN10FormatError (py "0471958698")
               (py "ISBN-10 weighted sum must be divisible by 11."))
  ∧ (∃ fields_set, BaseModel_init Book (book_record (PStr (py "155404295X"))) =
       Ok {| __dict__ := book_values (PStr (py "155404295X"));
             __fields_set__ := fields_set |}).
Proof.
  split; [apply char_to_int_Xx|].
  split; [apply char_to_int_digit|].
  split; [intros; unfold checksum; cbn; lia|].
  split.
  { intros value values Hlen Hvalues. split.
    - by rewrite weighted_sum_spec, Hvalues.
    - rewrite (isbn_10_validator_spec _ _ Hlen Hvalues).
      destruct (checksum values mod 11 =? 0)%Z eqn:Hsum.
      + apply Z.eqb_eq in Hsum. by split.
      + apply Z.eqb_neq in Hsum. by split. }
  split; [|split].
  - apply book_record_accepted. by rewrite isbn_10_validator_ascii.
  - apply book_record_raises; [|done]. by rewrite isbn_10_validator_ascii.
  - apply book_record_accepted. by rewrite isbn_10_validator_ascii.
Qed.

(** The filter, occurrence by occurrence. *)
Lemma isbn_chars_cons c value :
  isbn_chars (c :: value)
  = if isdigit c || in_Xx c then c :: isbn_chars value else isbn_chars value.
Proof. done. Qed.

Lemma isbn_chars_app value value' :
  isbn_chars (value ++ value') = isbn_chars value ++ isbn_chars value'.
Proof. apply List.filter_app. Qed.

Lemma isbn_chars_count value c :
  count_occ N.eq_dec (isbn_chars value) c
  = if isdigit c || in_Xx c then count_occ N.eq_dec value c else 0%nat.
Proof.
  induction value as [|c0 value IH]; [by destruct (isdigit c || in_Xx c)|].
  rewrite isbn_chars_cons. destruct (N.eq_dec c0 c) as [->|Hne].
  - destruct (isdigit c || in_Xx c) eqn:Hc.
    + rewrite !count_occ_cons_eq by done. by rewrite IH.
    + done.
  - rewrite (count_occ_cons_neq _ value Hne).
    destruct (isdigit c0 || in_Xx c0); [|done].
    by rewrite count_occ_cons_neq.
Qed.

(** C5, as amended.  The filter keeps, in their order, exactly the characters
    of the input for which [str.isdigit] holds or that are X or x.  Among the
    ASCII characters these are the digits 0 to 9, X and x, and every other
    ASCII character is discarded; the length check and the checksum read the
    filtered characters only.  Occurrence by occurrence: the filter goes
    through the input from the left and keeps a character or drops it on
    this test alone, so it distributes over concatenation, every kept
    character occurs as often as in the input, every other character not at
    all, and the kept occurrence at position [i] of the input comes after
    the kept occurrences before [i]. *)
Theorem filter_keeps_isdigit_or_X value :
  (∀ c, c ∈ isbn_chars value ↔ c ∈ value ∧ (isdigit c = true ∨ c = 88 ∨ c = 120))
  ∧ isbn_chars value `sublist_of` value
  ∧ (∀ c, c < 128 →
       (c ∈ isbn_chars value ↔ c ∈ value ∧ (48 ≤ c ≤ 57 ∨ c = 88 ∨ c = 120)))
  ∧ (∀ value', isbn_chars value' = isbn_chars value →
       (isbn_10_validator (PStr value') = Ok (PStr value')
        ↔ isbn_10_validator (PStr value) = Ok (PStr value)))
  ∧ isbn_chars [] = []
  ∧ (∀ c rest,
       isbn_chars (c :: rest)
       = if isdigit c || in_Xx c then c :: isbn_chars rest else isbn_chars rest)
  ∧ (∀ value', isbn_chars (value ++ value') = isbn_chars value ++ isbn_chars value')
  ∧ (∀ c, count_occ N.eq_dec (isbn_chars value) c
          = if isdigit c || in_Xx c then count_occ N.eq_dec value c else 0%nat)
  ∧ (∀ i c, value !! i = Some c → isdigit c || in_Xx c = true →
            isbn_chars value !! length (isbn_chars (take i value)) = Some c).
Proof.
  assert (∀ c, c ∈ isbn_chars value ↔ c ∈ value ∧ (isdigit c = true ∨ c = 88 ∨ c = 120))
    as Hmem.
  { intros c. unfold isbn_chars.
    rewrite !list_elem_of_In, filter_In, orb_true_iff, in_Xx_spec. tauto. }
  split; [done|]. split; [|split; [|split]].
  - apply isbn_chars_sublist.
  - intros c Hc. rewrite Hmem, (isdigit_ascii c Hc), ascii_digit_spec. tauto.
  - intros value' Hsame. unfold isbn_10_validator. rewrite Hsame.
    destruct (negb (length (isbn_chars value) =? 10)%nat); [done|].
    destruct (weighted_sum (isbn_chars value)) as [n|e]; cbn; [|done].
    by destruct (negb (n mod 11 =? 0)%Z).
  - split; [done|]. split; [apply isbn_chars_cons|]. split; [apply isbn_chars_app|].
    split; [apply isbn_chars_count|].
    intros i c Hi Hc.
    pose proof (f_equal isbn_chars (take_drop_middle value i c Hi)) as E.
    rewrite isbn_chars_app, isbn_chars_cons, Hc in E. rewrite <- E.
    by rewrite lookup_app_r, Nat.sub_diag by done.
Qed.

(** C6.  Validation treats an [isbn_10] string as it treats its filtered
    form: filtering again changes nothing, the one is accepted exactly when
    the other is, rejected with the same message exactly when the other is,
    and fails on a digit that [int] refuses exactly when the other does; an
    accepted value is returned as it was given.  So the record with
    ["0-471-95869-7"] becomes a [Book] as the record with ["0471958697"]
    does, and the [Book] holds the hyphenated string. *)
Theorem validated_as_filtered_stored_as_given :
  (∀ value, isbn_chars (isbn_chars value) = isbn_chars value)
  ∧ (∀ value,
       isbn_10_validator (PStr value) = Ok (PStr value)
       ↔ isbn_10_validator (PStr (isbn_chars value)) = Ok (PStr (isbn_chars value)))
  ∧ (∀ value message,
       isbn_10_validator (PStr value) = Raise (ISBN10FormatError value message)
       ↔ isbn_10_validator (PStr (isbn_chars value))
           = Raise (ISBN10FormatError (isbn_chars value) message))
  ∧ (∀ value message,
       isbn_10_validator (PStr value) = Raise (ValueError message)
       ↔ isbn_10_validator (PStr (isbn_chars value)) = Raise (ValueError message))
  ∧ (∀ value v, isbn_10_validator (PStr value) = Ok v → v = PStr value)
  ∧ isbn_chars (py "0-471-95869-7") = py "0471958697"
  ∧ (∃ fields_set, BaseModel_init Book (book_record (PStr (py "0-471-95869-7"))) =
       Ok {| __dict__ := book_values (PStr (py "0-471-95869-7"));
             __fields_set__ := fields_set |})
  ∧ (∃ fields_set, BaseModel_init Book (book_record (PStr (py "0471958697"))) =
       Ok {| __dict__ := book_values (PStr (py "0471958697"));
             __fields_set__ := fields_set |})
  ∧ book_values (PStr (py "0-471-95869-7")) !! py "isbn_10"
      = Some (PStr (py "0-471-95869-7")).
Proof.
  split; [apply isbn_chars_idemp|].
  split; [|split; [|split; [|split]]].
  - intros value. unfold isbn_10_validator. rewrite isbn_chars_idemp.
    destruct (negb (length (isbn_chars value) =? 10)%nat); [done|].
    destruct (weighted_sum (isbn_chars value)) as [n|e]; cbn; [|done].
    by destruct (negb (n mod 11 =? 0)%Z).
  - intros value message. unfold isbn_10_validator. rewrite isbn_chars_idemp.
    destruct (negb (length (isbn_chars value) =? 10)%nat).
    { split; intros [= <-]; done. }
    destruct (weighted_sum (isbn_chars value)) as [n|e] eqn:Hsum; cbn.
    + destruct (negb (n mod 11 =? 0)%Z); [|done].
      split; intros [= <-]; done.
    + destruct (weighted_sum_raises _ _ Hsum) as [m ->]. done.
  - intros value message. unfold isbn_10_validator. rewrite isbn_chars_idemp.
    destruct (negb (length (isbn_chars value) =? 10)%nat); [done|].
    destruct (weighted_sum (isbn_chars value)) as [n|e]; cbn; [|done].
    by destruct (negb (n mod 11 =? 0)%Z).
  - intros value v. unfold isbn_10_validator.
    destruct (negb (length (isbn_chars value) =? 10)%nat); [done|].
    destruct (weighted_sum (isbn_chars value)) as [n|e]; cbn; [|done].
    destruct (negb (n mod 11 =? 0)%Z); [done|]. by intros [= <-].
  - split; [by rewrite isbn_chars_ascii by (repeat constructor)|].
    split; [|split].
    + apply book_record_accepted. by rewrite isbn_10_validator_ascii.
    + apply book_record_accepted. by rewrite isbn_10_validator_ascii.
    + vm_compute. reflexivity.
Qed.

(** C7.  An [isbn_10] value whose filtered characters are not 10 in number is
    rejected with [ISBN10FormatError], which carries the value as it was
    given and the message "ISBN-10 must be 10 digits."; no checksum is
    computed.  The validator does so, and so does the construction of a
    [Book] from any record that holds the value, provided no validator of an
    earlier field raises past pydantic. *)
Theorem wrong_length_rejected value :
  length (isbn_chars value) ≠ 10%nat →
  isbn_10_validator (PStr value)
    = Raise (ISBN10FormatError value (py "ISBN-10 must be 10 digits."))
  ∧ ∀ raw, raw !! py "isbn_10" = Some (PStr value) →
      quiet str_validator raw "title" →
      quiet str_validator raw "author" →
      quiet str_validator raw "publisher" →
      quiet float_validator raw "price" →
      BaseModel_init Book raw
        = Raise (ISBN10FormatError value (py "ISBN-10 must be 10 digits.")).
Proof.
  intros Hlen.
  assert (isbn_10_validator (PStr value)
          = Raise (ISBN10FormatError value (py "ISBN-10 must be 10 digits."))) as Hraise.
  { unfold isbn_10_validator. cbn zeta.
    by rewrite (proj2 (Nat.eqb_neq _ _) Hlen). }
  split; [done|]. intros raw Hv Ht Ha Hp Hpr.
  by eapply Book_isbn_10_raises.
Qed.

(** When neither the key [isbn_10] nor the key [isbn_13] is in the record
    and the key [title] is, building a [Book] raises [ISBNMissingError] with
    that title and the fixed message, whatever the other fields hold: the
    check comes before any field is validated.  A record that has one of the
    two keys passes the check. *)
Lemma missing_identifier_by_key raw title :
  raw !! py "isbn_10" = None →
  raw !! py "isbn_13" = None →
  raw !! py "title" = Some title →
  BaseModel_init Book raw
    = Raise (ISBNMissingError title (py "Must have at least one ISBN."))
  ∧ ∀ raw' : gmap pystr pyval,
      is_Some (raw' !! py "isbn_10") ∨ is_Some (raw' !! py "isbn_13") →
      check_isbn10_and_isbn13 raw' = Ok raw'.
Proof.
  intros H10 H13 Ht. split; [|apply check_present].
  rewrite Book_init_unfold, (contains_false _ _ H10), (contains_false _ _ H13), Ht. done.
Qed.

(** C2.  What the code does on the failing input.  The presence check looks
    at the keys alone.  Without both keys it raises [ISBNMissingError], as the
    claim says; with both keys present and both values null it passes, and
    it is [isbn_10_validator], called with [None], that fails: the
    construction raises [ValidationError] with the [TypeError] under
    [isbn_10], not [ISBNMissingError].  So does every record with a null
    [isbn_10] whose other fields are accepted, whatever it holds under
    [isbn_13]. *)
Theorem null_identifiers_not_missing :
  (∀ (raw : gmap pystr pyval) (title : pyval),
     raw !! py "isbn_10" = None → raw !! py "isbn_13" = None →
     raw !! py "title" = Some title →
     BaseModel_init Book raw
     = Raise (ISBNMissingError title (py "Must have at least one ISBN.")))
  ∧ both_null_record !! py "isbn_10" = Some PNone
  ∧ both_null_record !! py "isbn_13" = Some PNone
  ∧ BaseModel_init Book both_null_record
    = Raise (ValidationError
               [(py "isbn_10", TypeError (py "'NoneType' object is not iterable"))])
  ∧ (∀ (raw : gmap pystr pyval) (title author publisher price isbn_13 subtitle : pyval),
       raw !! py "isbn_10" = Some PNone →
       well_typed str_validator raw "title" title →
       well_typed str_validator raw "author" author →
       well_typed str_validator raw "publisher" publisher →
       well_typed float_validator raw "price" price →
       optional_text raw "isbn_13" isbn_13 →
       optional_text raw "subtitle" subtitle →
       BaseModel_init Book raw
       = Raise (ValidationError
                  [(py "isbn_10", TypeError (py "'NoneType' object is not iterable"))])).
Proof.
  split; [|split; [|split; [|split]]].
  2-4: vm_compute; reflexivity.
  - intros raw title H10 H13 Ht.
    rewrite Book_init_unfold, (contains_false _ _ H10), (contains_false _ _ H13), Ht. done.
  - intros raw title author publisher price isbn_13 subtitle H10 Ht Ha Hp Hpr H13 Hsub.
    rewrite Book_init_checked by (apply check_present; left; rewrite H10; eauto).
    cbn [__fields__ Book validate_fields].
    rewrite (step_required _ _ _ _ _ Ht). cbn [mbind result_bind].
    rewrite (step_required _ _ _ _ _ Ha). cbn [mbind result_bind].
    rewrite (step_required _ _ _ _ _ Hp). cbn [mbind result_bind].
    rewrite (step_required _ _ _ _ _ Hpr). cbn [mbind result_bind].
    rewrite (validate_field_present _ _ _ _ PNone) by done.
    cbn [validate optional_field pre_validators apply_validators mbind result_bind
         is_None field_allow_none post_validators isbn_10_validator is_value_or_type_error].
    edestruct (step_optional_text "isbn_13" raw) as [fs2 ->]; [done|]. cbn [mbind result_bind].
    edestruct (step_optional_text "subtitle" raw) as [fs3 ->]; [done|]. cbn [mbind result_bind].
    done.
Qed.

(** C3.  What the code does on the failing input: with [isbn_10] null beside
    an [isbn_13] and well typed required fields, [isbn_10_validator] is
    called with [None], its [TypeError] is recorded, and the construction
    raises [ValidationError].  No record with a null [isbn_10] becomes a
    [Book]. *)
Theorem null_isbn_10_rejected :
  BaseModel_init Book null_isbn_10_record
    = Raise (ValidationError
               [(py "isbn_10", TypeError (py "'NoneType' object is not iterable"))])
  ∧ ∀ raw book, raw !! py "isbn_10" = Some PNone → BaseModel_init Book raw ≠ Ok book.
Proof.
  split; [vm_compute; reflexivity|]. intros raw book. apply Book_null_isbn_10.
Qed.

(** C4.  What the code does on the failing input: when neither identifier key
    is in the record and the key [title] is not either, reading
    [values["title"]] raises [KeyError] and no [ISBNMissingError] is built. *)
Theorem missing_title_key_error raw :
  raw !! py "isbn_10" = None →
  raw !! py "isbn_13" = None →
  raw !! py "title" = None →
  BaseModel_init Book raw = Raise (KeyError (py "title")).
Proof.
  intros H10 H13 Ht.
  rewrite Book_init_unfold, (contains_false _ _ H10), (contains_false _ _ H13), Ht. done.
Qed.

(** C8.  A [Book] is immutable: assigning to any of title, author,
    publisher, price, isbn_10, isbn_13, subtitle raises [TypeError] and
    leaves the instance as it was; and an assignment to any other attribute
    that is not one of Python's class attributes raises as well, the instance
    unchanged. *)
Theorem Book_immutable :
  Forall (λ name, ∀ self value,
            BaseModel_setattr Book self name value
            = (self, Some (TypeError immutable_message)))
         Book_fields
  ∧ ∀ self name value, name ∉ DUNDER_ATTRIBUTES →
      ∃ e, BaseModel_setattr Book self name value = (self, Some e).
Proof.
  split.
  - repeat constructor.
  - intros self name value Hname. unfold BaseModel_setattr.
    rewrite (bool_decide_eq_false_2 _ Hname).
    destruct (bool_decide _ && negb _); [eauto|].
    cbn. eauto.
Qed.

(** C9.  For a [Book] and a set [names], the projection that includes
    [names] and the one that excludes them partition the attributes: their
    union is the whole of [__dict__], no key is in both, and a name of
    [names] that is no attribute gets no entry in either.  The attributes of
    a validated [Book] are the seven declared fields. *)
Theorem projections_partition (self : BaseModel) (names : gset pystr) :
  let included := BaseModel_dict self (Some names) None in
  let excluded := BaseModel_dict self None (Some names) in
  included ∪ excluded = __dict__ self
  ∧ included ##ₘ excluded
  ∧ dom included ∪ dom excluded = dom (__dict__ self)
  ∧ dom included ∩ dom excluded = ∅
  ∧ (∀ name, name ∈ names → name ∉ dom (__dict__ self) →
       included !! name = None ∧ excluded !! name = None)
  ∧ (∀ raw, BaseModel_init Book raw = Ok self →
       dom (__dict__ self) = list_to_set Book_fields).
Proof.
  intros included excluded.
  assert (included = filter (λ kv, kv.1 ∈ names) (__dict__ self)) as Hin.
  { unfold included, BaseModel_dict, calculate_keys.
    apply map_filter_ext. intros k v Hk. cbn.
    apply (elem_of_dom_2 (__dict__ self)) in Hk. set_solver. }
  assert (excluded = filter (λ kv, ¬ kv.1 ∈ names) (__dict__ self)) as Hex.
  { unfold excluded, BaseModel_dict, calculate_keys.
    destruct (bool_decide (names = ∅)) eqn:Hempty.
    - apply bool_decide_eq_true in Hempty. subst names.
      apply map_filter_ext. intros k v Hk. cbn.
      apply (elem_of_dom_2 (__dict__ self)) in Hk. set_solver.
    - apply map_filter_ext. intros k v Hk. cbn.
      apply (elem_of_dom_2 (__dict__ self)) in Hk. set_solver. }
  assert (included ∪ excluded = __dict__ self) as Hunion.
  { rewrite Hin, Hex. apply map_filter_union_complement. }
  assert (included ##ₘ excluded) as Hdisj.
  { rewrite Hin, Hex. apply map_disjoint_filter_complement. }
  split; [done|]. split; [done|]. split; [|split; [|split]].
  - by rewrite <- dom_union_L, Hunion.
  - apply map_disjoint_dom in Hdisj. set_solver.
  - intros name _ Hname. apply not_elem_of_dom in Hname.
    rewrite Hin, Hex. split; apply map_lookup_filter_None_2; by left.
  - intros raw. apply Book_init_dom.
Qed.



End Properties.

(** * Runs on [sample] *)

Lemma wrong_length_rejected_witness :
  isbn_10_validator (rt:=sample) (PStr (py "12345"))
    = Raise (ISBN10FormatError (py "12345") (py "ISBN-10 must be 10 digits."))
  ∧ BaseModel_init (@Book sample) (book_record (PStr (py "12345")))
    = Raise (ISBN10FormatError (py "12345") (py "ISBN-10 must be 10 digits.")).
Proof.
  destruct (wrong_length_rejected (rt:=sample) (py "12345")) as [Hvalidator Hbook].
  { vm_compute. lia. }
  split; [exact Hvalidator|].
  destruct (book_record_quiet (rt:=sample) (PStr (py "12345"))) as (Ht & Ha & Hp & Hpr).
  apply Hbook; [vm_compute; reflexivity|assumption..].
Defined.

Lemma missing_title_key_error_witness :
  BaseModel_init (@Book sample) no_title_record = Raise (KeyError (py "title")).
Proof.
  apply (missing_title_key_error (rt:=sample) no_title_record); vm_compute; reflexivity.
Defined.


(** C5, the claim as stated fails: ARABIC-INDIC DIGIT ZERO (U+0660) is no
    ASCII digit and neither X nor x, and the filter keeps it; the ten
    characters pass the length check and enter the checksum, and the value is
    accepted. *)
Lemma filter_keeps_arabic_indic_digit :
  let value := 1632 :: py "471958697" in
  ascii_digit 1632 = false
  ∧ in_Xx 1632 = false
  ∧ isbn_chars (rt:=sample) value = value
  ∧ length (isbn_chars (rt:=sample) value) = 10%nat
  ∧ weighted_sum (rt:=sample) (isbn_chars (rt:=sample) value) = Ok 253%Z
  ∧ isbn_10_validator (rt:=sample) (PStr value) = Ok (PStr value).
Proof. repeat split; vm_compute; reflexivity. Qed.


(** * More of the code

    What follows covers the paths of main.py that the claims above leave
    out: the second raise of [isbn_10_validator], the digits that [int]
    refuses, what a validated [Book] holds, what the checksum detects, the
    exceptions [Book] can raise, the results of [main], and a [Book] built
    from the attributes of another. *)

Section Further.
Context {rt : Builtins}.

Local Arguments py : simpl never.

(** ** Inversion of the loop over the fields *)



(** A step that leaves the errors as they were has stored a value: the one
    validated from the record, or the default of an absent optional field. *)
Lemma validate_field_stored raw st field st' :
  field_validate_always field = false →
  validate_field Config raw st field = Ok st' →
  st_errors st' = st_errors st →
  (∃ v v', raw !! field_name field = Some v
           ∧ validate field v (field_name field) = Ok (v', None)
           ∧ st_values st' = <[field_name field := v']> (st_values st))
  ∨ (raw !! field_name field = None ∧ field_required field = false
     ∧ st_values st' = <[field_name field := field_default field]> (st_values st)).
Proof.
  intros Halways. unfold validate_field.
  assert (∀ (l : list ErrorWrapper) e, l ++ [e] ≠ l) as Hgrow.
  { intros l e H. apply (f_equal length) in H. rewrite length_app in H. cbn in H. lia. }
  destruct (raw !! field_name field) as [v|].
  - destruct (validate field v (field_name field)) as [[v_ [e|]]|] eqn:Hv; cbn; [| |done].
    + intros [= <-]. cbn. intros H. by apply Hgrow in H.
    + intros [= <-]. cbn. intros _. left. eauto.
  - destruct (field_required field).
    { intros [= <-]. cbn. intros H. by apply Hgrow in H. }
    rewrite Halways. cbn. intros [= <-]. cbn. intros _. by right.
Qed.

Lemma validate_fields_step config raw st field fields st' :
  validate_fields config raw st (field :: fields) = Ok st' →
  st_errors st' = [] →
  ∃ st1, validate_field config raw st field = Ok st1
         ∧ st_errors st1 = [] ∧ st_errors st = []
         ∧ validate_fields config raw st1 fields = Ok st'.
Proof.
  cbn. destruct (validate_field config raw st field) as [st1|] eqn:H1; cbn; [|done].
  intros Hrest Hnil. exists st1.
  assert (st_errors st1 = []) as Hst1.
  { destruct (st_errors st1) eqn:He; [done|].
    exfalso. apply (validate_fields_errors _ _ _ _ _ Hrest); [|done]. by rewrite He. }
  split; [done|]. split; [done|]. split; [|done].
  destruct (validate_field_inv _ _ _ _ _ H1) as [(v & _ & He)|(_ & e & He)].
  - by rewrite <- He.
  - rewrite Hst1 in He. by destruct (st_errors st).
Qed.

Lemma step_required_inv name validator raw st st1 :
  validate_field Config raw st (required_field name validator) = Ok st1 →
  st_errors st1 = st_errors st →
  ∃ v', well_typed validator raw name v'
        ∧ st_values st1 = <[py name := v']> (st_values st).
Proof.
  intros Hstep Herr.
  destruct (validate_field_stored raw st (required_field name validator) st1
              eq_refl Hstep Herr)
    as [(v & v' & Hv & Hval & Hst)|(_ & Hreq & _)]; [|done].
  exists v'. split; [|done]. exists v. split; [done|].
  cbn [field_name required_field] in Hval.
  destruct (is_None v) eqn:Hn.
  { by destruct v. }
  rewrite validate_required in Hval by done.
  split; [by destruct v|].
  destruct (validator v) as [v1|e]; [by injection Hval as ->|].
  by destruct (is_value_or_type_error e).
Qed.

Lemma step_optional_text_inv name raw st st1 :
  validate_field Config raw st (optional_field name []) = Ok st1 →
  st_errors st1 = st_errors st →
  ∃ v', optional_text raw name v'
        ∧ st_values st1 = <[py name := v']> (st_values st).
Proof.
  intros Hstep Herr. unfold optional_text.
  destruct (validate_field_stored raw st (optional_field name []) st1 eq_refl Hstep Herr)
    as [(v & v' & Hv & Hval & Hst)|(Hv & _ & Hst)].
  - exists v'. split; [|done]. cbn [field_name optional_field] in Hv, Hval. rewrite Hv.
    destruct (is_None v) eqn:Hn.
    + destruct v; try done. rewrite validate_optional_None in Hval. by injection Hval as <-.
    + rewrite validate_optional in Hval by done.
      destruct (str_validator v) as [v1|e] eqn:Hs.
      * cbn in Hval. injection Hval as <-. by destruct v.
      * by destruct (is_value_or_type_error e).
  - exists PNone. cbn [field_name optional_field] in Hv. by rewrite Hv.
Qed.

Lemma step_isbn_10_inv raw st st1 :
  validate_field Config raw st (optional_field "isbn_10" [isbn_10_validator]) = Ok st1 →
  st_errors st1 = st_errors st →
  ∃ v', valid_isbn_10 raw v'
        ∧ st_values st1 = <[py "isbn_10" := v']> (st_values st).
Proof.
  intros Hstep Herr. unfold valid_isbn_10.
  destruct (validate_field_stored raw st (optional_field "isbn_10" [isbn_10_validator]) st1
              eq_refl Hstep Herr)
    as [(v & v' & Hv & Hval & Hst)|(Hv & _ & Hst)].
  - exists v'. split; [|done]. cbn [field_name optional_field] in Hv, Hval. rewrite Hv.
    destruct (is_None v) eqn:Hn.
    { by destruct v. }
    rewrite validate_optional in Hval by done.
    destruct (str_validator v) as [s|e] eqn:Hs.
    + exists s. split; [done|]. cbn in Hval.
      destruct (isbn_10_validator s) as [v1|e]; [by injection Hval as ->|].
      by destruct (is_value_or_type_error e).
    + by destruct (is_value_or_type_error e).
  - exists PNone. cbn [field_name optional_field] in Hv. by rewrite Hv.
Qed.

(** ** What a validated Book holds *)

Lemma float_validator_float v v' : float_validator v = Ok v' → ∃ x, v' = PFloat x.
Proof.
  unfold float_validator.
  assert (∀ r : result spec_float,
            match r with
            | Ok x => Ok (PFloat x)
            | Raise e => if is_value_or_type_error e then Raise FloatError else Raise e
            end = Ok v' → ∃ x, v' = PFloat x) as Hr.
  { intros [x|e]; [intros [= <-]; eauto|]. by destruct (is_value_or_type_error e). }
  destruct v; try apply Hr. intros [= <-]. eauto.
Qed.

Lemma isbn_10_validator_returns v v' : isbn_10_validator v = Ok v' → v' = v.
Proof.
  destruct v as [| | | |s| |]; try done. cbn.
  destruct (negb (length (isbn_chars s) =? 10)%nat); [done|].
  destruct (weighted_sum (isbn_chars s)) as [n|e]; cbn; [|done].
  destruct (negb (n mod 11 =? 0)%Z); [done|]. by intros [= <-].
Qed.

(** What a record that became a [Book] held, and what the [Book] holds. *)
Lemma Book_init_values (raw attributes : gmap pystr pyval) (fields_set : gset pystr) :
  BaseModel_init Book raw = Ok {| __dict__ := attributes; __fields_set__ := fields_set |} →
  (is_Some (raw !! py "isbn_10") ∨ is_Some (raw !! py "isbn_13"))
  ∧ ∃ title author publisher price isbn_10 isbn_13 subtitle,
      well_typed str_validator raw "title" title
      ∧ well_typed str_validator raw "author" author
      ∧ well_typed str_validator raw "publisher" publisher
      ∧ well_typed float_validator raw "price" price
      ∧ valid_isbn_10 raw isbn_10
      ∧ optional_text raw "isbn_13" isbn_13
      ∧ optional_text raw "subtitle" subtitle
      ∧ attributes = Book_dict title author publisher price isbn_10 isbn_13 subtitle.
Proof.
  intros Hinit.
  assert (is_Some (raw !! py "isbn_10") ∨ is_Some (raw !! py "isbn_13")) as Hid.
  { rewrite Book_init_unfold in Hinit. unfold contains in Hinit.
    destruct (raw !! py "isbn_10") as [v|]; [left; eauto|].
    destruct (raw !! py "isbn_13") as [v|]; [right; eauto|].
    rewrite !bool_decide_eq_false_2 in Hinit by (by intros [? ?]).
    cbn in Hinit. by destruct (raw !! py "title"). }
  split; [done|].
  apply Book_init_inv in Hinit as (st & Hst & Herr & [= -> ->]).
  cbn [__fields__ Book] in Hst.
  apply validate_fields_step in Hst as (st1 & H1 & E1 & E0 & Hst); [|done].
  apply validate_fields_step in Hst as (st2 & H2 & E2 & _ & Hst); [|done].
  apply validate_fields_step in Hst as (st3 & H3 & E3 & _ & Hst); [|done].
  apply validate_fields_step in Hst as (st4 & H4 & E4 & _ & Hst); [|done].
  apply validate_fields_step in Hst as (st5 & H5 & E5 & _ & Hst); [|done].
  apply validate_fields_step in Hst as (st6 & H6 & E6 & _ & Hst); [|done].
  apply validate_fields_step in Hst as (st7 & H7 & E7 & _ & Hst); [|done].
  cbn in Hst. injection Hst as <-.
  apply step_required_inv in H1 as (title & Ht & V1); [|by rewrite E1].
  apply step_required_inv in H2 as (author & Ha & V2); [|by rewrite E2, E1].
  apply step_required_inv in H3 as (publisher & Hp & V3); [|by rewrite E3, E2].
  apply step_required_inv in H4 as (price & Hpr & V4); [|by rewrite E4, E3].
  apply step_isbn_10_inv in H5 as (isbn_10 & H10 & V5); [|by rewrite E5, E4].
  apply step_optional_text_inv in H6 as (isbn_13 & H13 & V6); [|by rewrite E6, E5].
  apply step_optional_text_inv in H7 as (subtitle & Hsub & V7); [|by rewrite E7, E6].
  exists title, author, publisher, price, isbn_10, isbn_13, subtitle.
  repeat (split; [done|]).
  unfold Book_dict. by rewrite V7, V6, V5, V4, V3, V2, V1.
Qed.


(** The attributes of a validated [Book]: three texts, a float, an [isbn_10]
    that is [None] or a text that [isbn_10_validator] accepts, an [isbn_13]
    and a subtitle that are [None] or texts.  Both identifiers can be
    [None]. *)
Theorem Book_attribute_types (raw : gmap pystr pyval) (book : BaseModel) :
  BaseModel_init Book raw = Ok book →
  ∃ title author publisher price isbn_10 isbn_13 subtitle,
    __dict__ book = Book_dict (PStr title) (PStr author) (PStr publisher) (PFloat price)
                              isbn_10 isbn_13 subtitle
    ∧ (isbn_10 = PNone
       ∨ ∃ s, isbn_10 = PStr s ∧ isbn_10_validator (PStr s) = Ok (PStr s))
    ∧ (isbn_13 = PNone ∨ ∃ s, isbn_13 = PStr s)
    ∧ (subtitle = PNone ∨ ∃ s, subtitle = PStr s).
Proof.
  intros Hinit.
  assert (∃ fields_set, BaseModel_init Book raw =
            Ok {| __dict__ := __dict__ book; __fields_set__ := fields_set |}) as H.
  { exists (__fields_set__ book). by destruct book. }
  destruct H as [fields_set H]. apply Book_init_values in H
    as (_ & title & author & publisher & price & isbn_10 & isbn_13 & subtitle
        & (vt & _ & _ & Ht) & (va & _ & _ & Ha) & (vp & _ & _ & Hp) & (vpr & _ & _ & Hpr)
        & H10 & H13 & Hsub & Hdict).
  apply str_validator_str in Ht as [t ->]. apply str_validator_str in Ha as [a ->].
  apply str_validator_str in Hp as [p' ->]. apply float_validator_float in Hpr as [x ->].
  assert (∀ name v', optional_text raw name v' → v' = PNone ∨ ∃ s, v' = PStr s) as Hopt.
  { intros name v'. unfold optional_text.
    destruct (raw !! py name) as [v|]; [|by left].
    destruct (is_None v) eqn:Hn; [destruct v; try done; by left|].
    intros Hv. right. apply (str_validator_str v). by destruct v. }
  exists t, a, p', x, isbn_10, isbn_13, subtitle.
  split; [done|]. split; [|split; by eapply Hopt].
  unfold valid_isbn_10 in H10. destruct (raw !! py "isbn_10") as [v|]; [|by left].
  destruct H10 as (s & Hs & Hok). right.
  destruct (str_validator_str _ _ Hs) as [s' ->].
  pose proof (isbn_10_validator_returns _ _ Hok) as ->. eauto.
Qed.

(** ** The second raise of isbn_10_validator *)

(** Ten filtered characters whose weighted sum is not divisible by 11 are
    rejected with [ISBN10FormatError], which carries the value as given and
    the message of the checksum; the construction of a [Book] raises the
    same exception, whatever errors the earlier fields have, provided none of
    their validators raises past pydantic. *)
Theorem bad_checksum_rejected value values :
  length (isbn_chars value) = 10%nat →
  mapM char_to_int (isbn_chars value) = Ok values →
  (checksum values mod 11 ≠ 0)%Z →
  isbn_10_validator (PStr value)
    = Raise (ISBN10FormatError value (py "ISBN-10 weighted sum must be divisible by 11."))
  ∧ ∀ raw, raw !! py "isbn_10" = Some (PStr value) →
      quiet str_validator raw "title" →
      quiet str_validator raw "author" →
      quiet str_validator raw "publisher" →
      quiet float_validator raw "price" →
      BaseModel_init Book raw
        = Raise (ISBN10FormatError value
                   (py "ISBN-10 weighted sum must be divisible by 11.")).
Proof.
  intros Hlen Hvalues Hsum.
  assert (isbn_10_validator (PStr value)
          = Raise (ISBN10FormatError value
                     (py "ISBN-10 weighted sum must be divisible by 11."))) as Hraise.
  { rewrite (isbn_10_validator_spec _ _ Hlen Hvalues).
    by rewrite (proj2 (Z.eqb_neq _ _) Hsum). }
  split; [done|]. intros raw Hv Ht Ha Hp Hpr. by eapply Book_isbn_10_raises.
Qed.

(** ** A digit that int refuses *)

Lemma mapM_char_to_int_refused chars c :
  c ∈ chars → in_Xx c = false → int_char c = None →
  ∃ message, mapM char_to_int chars = Raise (ValueError message).
Proof.
  intros Hc HX Hint. induction chars as [|c0 chars IH]; [by apply elem_of_nil in Hc|].
  cbn [mapM]. destruct (char_to_int c0) as [n|e] eqn:H0; cbn.
  - apply elem_of_cons in Hc as [->|Hc].
    { unfold char_to_int in H0. by rewrite HX, Hint in H0. }
    destruct (IH Hc) as [message ->]. cbn. eauto.
  - destruct (char_to_int_raises _ _ H0) as [message ->]. eauto.
Qed.

(** The fixture record has no field after [isbn_10]: an error that pydantic
    catches there is the only one it reports. *)
Lemma book_record_reports s e :
  isbn_10_validator (PStr s) = Raise e → is_value_or_type_error e = true →
  BaseModel_init Book (book_record (PStr s))
    = Raise (ValidationError [(py "isbn_10", e)]).
Proof.
  intros Hraise He.
  destruct (book_record_lookups (PStr s)) as (Ht & Ha & Hp & Hpr & H10 & H13 & Hs).
  rewrite Book_init_checked by (apply check_present; left; rewrite H10; eauto).
  cbn [__fields__ Book validate_fields].
  rewrite (step_required "title" str_validator _ _ (PStr (py "Introduction to Graph Theory")))
    by by eexists.
  cbn [mbind result_bind].
  rewrite (step_required "author" str_validator _ _ (PStr (py "Robin J. Wilson")))
    by by eexists.
  cbn [mbind result_bind].
  rewrite (step_required "publisher" str_validator _ _ (PStr (py "Wiley"))) by by eexists.
  cbn [mbind result_bind].
  rewrite (step_required "price" float_validator _ _ (PFloat price_39_5)) by by eexists.
  cbn [mbind result_bind].
  rewrite (validate_field_present _ _ _ _ (PStr s)) by done.
  rewrite validate_optional by done.
  cbn [str_validator apply_validators]. rewrite Hraise, He.
  cbn [mbind result_bind].
  rewrite !validate_field_absent by done.
  done.
Qed.

(** When the ten filtered characters hold a digit that [int] refuses, the
    validator raises the [ValueError] of [int], not [ISBN10FormatError]; no
    record holding the value becomes a [Book], and the fixture record raises
    a [ValidationError] that reports the [ValueError] under [isbn_10]. *)
Theorem refused_digit_is_a_value_error value c :
  length (isbn_chars value) = 10%nat →
  c ∈ isbn_chars value → in_Xx c = false → int_char c = None →
  ∃ message,
    isbn_10_validator (PStr value) = Raise (ValueError message)
    ∧ (∀ raw book, raw !! py "isbn_10" = Some (PStr value) →
         BaseModel_init Book raw ≠ Ok book)
    ∧ BaseModel_init Book (book_record (PStr value))
      = Raise (ValidationError [(py "isbn_10", ValueError message)]).
Proof.
  intros Hlen Hc HX Hint.
  destruct (mapM_char_to_int_refused _ _ Hc HX Hint) as [message Hm].
  assert (isbn_10_validator (PStr value) = Raise (ValueError message)) as Hraise.
  { unfold isbn_10_validator. cbn zeta. by rewrite Hlen, weighted_sum_spec, Hm. }
  exists message. split; [done|]. split.
  - intros raw book Hv Hinit.
    assert (∃ fields_set, BaseModel_init Book raw =
              Ok {| __dict__ := __dict__ book; __fields_set__ := fields_set |}) as H.
    { exists (__fields_set__ book). by destruct book. }
    destruct H as [fields_set H].
    apply Book_init_values in H as (_ & ? & ? & ? & ? & isbn_10 & ? & ? & H).
    destruct H as (_ & _ & _ & _ & H10 & _).
    unfold valid_isbn_10 in H10. rewrite Hv in H10.
    destruct H10 as (s & [= <-] & Hok). by rewrite Hraise in Hok.
  - by apply book_record_reports.
Qed.

(** ** The identifiers *)

(** The presence check does not look at values: a record without the key
    [isbn_10] whose [isbn_13] is null becomes a [Book] with both identifiers
    [None]. *)
Theorem null_identifier_accepted (raw : gmap pystr pyval)
    (title author publisher price subtitle : pyval) :
  raw !! py "isbn_10" = None →
  raw !! py "isbn_13" = Some PNone →
  well_typed str_validator raw "title" title →
  well_typed str_validator raw "author" author →
  well_typed str_validator raw "publisher" publisher →
  well_typed float_validator raw "price" price →
  optional_text raw "subtitle" subtitle →
  ∃ fields_set, BaseModel_init Book raw =
    Ok {| __dict__ := Book_dict title author publisher price PNone PNone subtitle;
          __fields_set__ := fields_set |}.
Proof.
  intros H10 H13 Ht Ha Hp Hpr Hsub. apply Book_init_accepts; try done.
  - right. rewrite H13. eauto.
  - unfold valid_isbn_10. by rewrite H10.
  - unfold optional_text. by rewrite H13.
Qed.

Lemma well_typed_insert (validator : Validator) (raw : gmap pystr pyval)
    (key : pystr) (v : pyval) (name : string) (v' : pyval) :
  py name ≠ key →
  well_typed validator raw name v' → well_typed validator (<[key := v]> raw) name v'.
Proof.
  intros Hne (w & Hw & Hnone & Hok). exists w. by rewrite lookup_insert_ne.
Qed.

(** [isbn_13] has no validator of its own: whatever text a record holds
    there, the record is accepted when its other fields are, and the [Book]
    holds that text. *)
Theorem isbn_13_unchecked (raw : gmap pystr pyval) (s : pystr)
    (title author publisher price isbn_10 subtitle : pyval) :
  well_typed str_validator raw "title" title →
  well_typed str_validator raw "author" author →
  well_typed str_validator raw "publisher" publisher →
  well_typed float_validator raw "price" price →
  valid_isbn_10 raw isbn_10 →
  optional_text raw "subtitle" subtitle →
  ∃ fields_set, BaseModel_init Book (<[py "isbn_13" := PStr s]> raw) =
    Ok {| __dict__ := Book_dict title author publisher price isbn_10 (PStr s) subtitle;
          __fields_set__ := fields_set |}.
Proof.
  intros Ht Ha Hp Hpr H10 Hsub.
  assert (∀ name : string, py name ≠ py "isbn_13" →
            <[py "isbn_13" := PStr s]> raw !! py name = raw !! py name) as Hother.
  { intros name Hne. by rewrite lookup_insert_ne. }
  apply Book_init_accepts.
  - right. rewrite lookup_insert_eq. eauto.
  - apply well_typed_insert; [|done]. intros H. vm_compute in H. discriminate H.
  - apply well_typed_insert; [|done]. intros H. vm_compute in H. discriminate H.
  - apply well_typed_insert; [|done]. intros H. vm_compute in H. discriminate H.
  - apply well_typed_insert; [|done]. intros H. vm_compute in H. discriminate H.
  - unfold valid_isbn_10 in *. rewrite Hother; [done|].
    intros H. vm_compute in H. discriminate H.
  - unfold optional_text. by rewrite lookup_insert_eq.
  - unfold optional_text in *. rewrite Hother; [done|].
    intros H. vm_compute in H. discriminate H.
Qed.

(** ** What the checksum detects *)

Lemma checksum_from_app i values values' :
  checksum_from i (values ++ values')
  = (checksum_from i values + checksum_from (i + Z.of_nat (length values)) values')%Z.
Proof.
  revert i. induction values as [|v values IH]; intros i; cbn [app checksum_from length].
  - replace (i + Z.of_nat 0)%Z with i by lia. lia.
  - rewrite IH. replace (i + 1 + Z.of_nat (length values))%Z
      with (i + Z.of_nat (S (length values)))%Z by lia. lia.
Qed.

Lemma isbn_value_range c : isbn_char c = true → (0 ≤ isbn_value c ≤ 10)%Z.
Proof.
  unfold isbn_char, isbn_value. destruct (in_Xx c); [lia|].
  rewrite orb_false_r, ascii_digit_spec. lia.
Qed.

(** Every weight from 10 down to 1 is invertible modulo 11. *)
Lemma weight_invertible (w d : Z) :
  (1 ≤ w ≤ 10)%Z → (-10 ≤ d ≤ 10)%Z → d ≠ 0%Z → ((w * d) mod 11 ≠ 0)%Z.
Proof.
  intros Hw Hd Hne Hmod.
  apply Z.mod_divide in Hmod; [|lia].
  assert (Z.gcd 11 w = 1%Z) as Hgcd.
  { assert (w = 1 ∨ w = 2 ∨ w = 3 ∨ w = 4 ∨ w = 5 ∨ w = 6 ∨ w = 7 ∨ w = 8 ∨ w = 9 ∨ w = 10)%Z
      as Hcases by lia.
    repeat destruct Hcases as [->|Hcases]; try subst w; reflexivity. }
  apply Z.gauss in Hmod; [|done].
  destruct Hmod as [k Hk]. lia.
Qed.

(** On a string of ASCII digits and X the validator is the checksum test. *)
Lemma isbn_10_validator_plain value :
  Forall (λ c, isbn_char c = true) value → length value = 10%nat →
  isbn_10_validator (PStr value) =
    if (checksum (map isbn_value value) mod 11 =? 0)%Z then Ok (PStr value)
    else Raise (ISBN10FormatError value (py "ISBN-10 weighted sum must be divisible by 11.")).
Proof.
  intros Hall Hlen.
  assert (isbn_chars value = value) as Hchars.
  { unfold isbn_chars. apply forallb_filter_id, forallb_forall. intros c Hc.
    rewrite Forall_forall in Hall. apply list_elem_of_In in Hc.
    rewrite isdigit_ascii by (apply Hall in Hc; unfold isbn_char in Hc;
      rewrite orb_true_iff, ascii_digit_spec, in_Xx_spec in Hc; lia).
    by apply Hall. }
  apply isbn_10_validator_spec; rewrite Hchars; [done|].
  by apply mapM_char_to_int_isbn.
Qed.

(** Changing one character of an accepted ISBN-10 into a character of another
    value makes it rejected. *)
Theorem substitution_detected before c c' after :
  Forall (λ c, isbn_char c = true) (before ++ c :: after) →
  isbn_char c' = true →
  length (before ++ c :: after) = 10%nat →
  isbn_value c ≠ isbn_value c' →
  isbn_10_validator (PStr (before ++ c :: after)) = Ok (PStr (before ++ c :: after)) →
  isbn_10_validator (PStr (before ++ c' :: after))
    = Raise (ISBN10FormatError (before ++ c' :: after)
               (py "ISBN-10 weighted sum must be divisible by 11.")).
Proof.
  intros Hall Hc' Hlen Hne Hok.
  assert (Forall (λ c, isbn_char c = true) (before ++ c' :: after)) as Hall'.
  { apply Forall_app in Hall as [Hb Ha]. apply Forall_cons in Ha as [_ Ha].
    apply Forall_app. split; [done|]. by apply Forall_cons. }
  assert (length (before ++ c' :: after) = 10%nat) as Hlen'.
  { rewrite length_app in *. cbn in *. lia. }
  rewrite isbn_10_validator_plain in Hok by done.
  rewrite isbn_10_validator_plain by done.
  destruct (checksum (map isbn_value (before ++ c :: after)) mod 11 =? 0)%Z eqn:Hsum;
    [|done].
  apply Z.eqb_eq in Hsum.
  assert (isbn_char c = true) as Hc.
  { apply Forall_app in Hall as [_ Ha]. by apply Forall_cons in Ha as [Ha _]. }
  pose proof (isbn_value_range _ Hc) as Hr. pose proof (isbn_value_range _ Hc') as Hr'.
  assert (checksum (map isbn_value (before ++ c' :: after)) mod 11 ≠ 0)%Z as Hsum'.
  { revert Hsum. unfold checksum. rewrite !map_app, !checksum_from_app. cbn [map checksum_from].
    rewrite length_map.
    assert (length before < 10)%nat as Hb by (rewrite length_app in Hlen; cbn in Hlen; lia).
    generalize (checksum_from 0 (map isbn_value before)).
    generalize (checksum_from (0 + Z.of_nat (length before) + 1) (map isbn_value after)).
    intros rest first Hsum Hsum'.
    apply (weight_invertible (10 - (0 + Z.of_nat (length before))) (isbn_value c - isbn_value c'));
      [lia..|].
    revert Hsum Hsum'. rewrite Z.mul_sub_distr_l.
    generalize ((10 - (0 + Z.of_nat (length before))) * isbn_value c)%Z.
    generalize ((10 - (0 + Z.of_nat (length before))) * isbn_value c')%Z.
    intros a b Ha Hb'. Z.div_mod_to_equations. lia. }
  by rewrite (proj2 (Z.eqb_neq _ _) Hsum').
Qed.

(** Exchanging two neighbouring characters of different values in an accepted
    ISBN-10 makes it rejected: neighbouring weights differ by one. *)
Theorem transposition_detected before c c' after :
  Forall (λ c, isbn_char c = true) (before ++ c :: c' :: after) →
  length (before ++ c :: c' :: after) = 10%nat →
  isbn_value c ≠ isbn_value c' →
  isbn_10_validator (PStr (before ++ c :: c' :: after))
    = Ok (PStr (before ++ c :: c' :: after)) →
  isbn_10_validator (PStr (before ++ c' :: c :: after))
    = Raise (ISBN10FormatError (before ++ c' :: c :: after)
               (py "ISBN-10 weighted sum must be divisible by 11.")).
Proof.
  intros Hall Hlen Hne Hok.
  assert (isbn_char c = true ∧ isbn_char c' = true) as [Hc Hc'].
  { apply Forall_app in Hall as [_ Ha]. apply Forall_cons in Ha as [Hc Ha].
    by apply Forall_cons in Ha as [Hc' _]. }
  assert (Forall (λ c, isbn_char c = true) (before ++ c' :: c :: after)) as Hall'.
  { apply Forall_app in Hall as [Hb Ha]. apply Forall_cons in Ha as [_ Ha].
    apply Forall_cons in Ha as [_ Ha].
    apply Forall_app; split; [done|]. by repeat apply Forall_cons_2. }
  assert (length (before ++ c' :: c :: after) = 10%nat) as Hlen'.
  { rewrite length_app in *. cbn in *. lia. }
  rewrite isbn_10_validator_plain in Hok by done.
  rewrite isbn_10_validator_plain by done.
  destruct (checksum (map isbn_value (before ++ c :: c' :: after)) mod 11 =? 0)%Z eqn:Hsum;
    [|done].
  apply Z.eqb_eq in Hsum.
  pose proof (isbn_value_range _ Hc) as Hr. pose proof (isbn_value_range _ Hc') as Hr'.
  assert (checksum (map isbn_value (before ++ c' :: c :: after)) mod 11 ≠ 0)%Z as Hsum'.
  { revert Hsum. unfold checksum. rewrite !map_app, !checksum_from_app. cbn [map checksum_from].
    rewrite length_map.
    generalize (checksum_from 0 (map isbn_value before)).
    generalize (checksum_from (0 + Z.of_nat (length before) + 1 + 1) (map isbn_value after)).
    generalize (0 + Z.of_nat (length before))%Z.
    intros i rest first Hsum Hsum'.
    apply (weight_invertible 1 (isbn_value c - isbn_value c')); [lia..|].
    replace (1 * (isbn_value c - isbn_value c'))%Z
      with ((first + ((10 - i) * isbn_value c + ((10 - (i + 1)) * isbn_value c' + rest)))
            - (first + ((10 - i) * isbn_value c' + ((10 - (i + 1)) * isbn_value c + rest))))%Z
      by ring.
    revert Hsum Hsum'.
    generalize (first + ((10 - i) * isbn_value c + ((10 - (i + 1)) * isbn_value c' + rest)))%Z.
    generalize (first + ((10 - i) * isbn_value c' + ((10 - (i + 1)) * isbn_value c + rest)))%Z.
    intros a b Ha Hb'. Z.div_mod_to_equations. lia. }
  by rewrite (proj2 (Z.eqb_neq _ _) Hsum').
Qed.
(** ** The exceptions of Book *)











(** ** The results of main *)

(** The list comprehension stops at the first record that raises. *)
Lemma mapM_raises {A B} (f : A → result B) (l : list A) (e : exn) :
  mapM f l = Raise e
  ↔ ∃ before item after,
      l = before ++ item :: after
      ∧ Forall (λ r, ∃ b, f r = Ok b) before
      ∧ f item = Raise e.
Proof.
  induction l as [|x l IH]; cbn [mapM].
  - split; [done|]. intros (before & item & after & Hl & _). by destruct before.
  - destruct (f x) as [y|exc] eqn:Hx; cbn.
    + destruct (mapM f l) as [ys|exc] eqn:Hl; cbn.
      * split; [done|]. intros (before & item & after & Heq & Hall & Hitem).
        destruct before as [|x' before]; cbn in Heq; injection Heq as -> ->.
        { by rewrite Hx in Hitem. }
        apply Forall_cons in Hall as [_ Hall].
        assert (Ok ys = Raise e) as Hno by (apply IH; eauto 6). done.
      * split.
        -- intros [= <-]. destruct (proj1 IH eq_refl) as (before & item & after & -> & Hall & Hi).
           exists (x :: before), item, after. split; [done|]. split; [|done].
           apply Forall_cons. eauto.
        -- intros (before & item & after & Heq & Hall & Hitem).
           destruct before as [|x' before]; cbn in Heq; injection Heq as -> ->.
           { by rewrite Hx in Hitem. }
           apply Forall_cons in Hall as [_ Hall]. apply IH. eauto 6.
    + split.
      * intros [= <-]. exists [], x, l. by repeat split.
      * intros (before & item & after & Heq & Hall & Hitem).
        destruct before as [|x' before]; cbn in Heq; injection Heq as -> ->.
        { congruence. }
        apply Forall_cons in Hall as [[b Hb] _]. by rewrite Hx in Hb.
Qed.

(** The three values of [main] for a first book with the given attributes. *)
Lemma main_first_book (item : gmap pystr pyval) (rest : list (gmap pystr pyval))
    (books : list BaseModel) (fields_set : gset pystr)
    (title author publisher price isbn_10 isbn_13 subtitle : pyval) :
  BaseModel_init Book item
  = Ok {| __dict__ := Book_dict title author publisher price isbn_10 isbn_13 subtitle;
          __fields_set__ := fields_set |} →
  mapM (BaseModel_init Book) rest = Ok books →
  main (item :: rest)
  = Ok (author,
        {[ py "title" := title; py "author" := author ]},
        {[ py "publisher" := publisher;
           py "price" := price;
           py "isbn_10" := isbn_10;
           py "isbn_13" := isbn_13;
           py "subtitle" := subtitle ]}).
Proof.
  intros Hbook Hrest.
  unfold main. cbn [mapM]. rewrite Hbook. cbn [mbind result_bind]. rewrite Hrest.
  cbn [mbind result_bind mret result_ret].
  vm_compute. reflexivity.
Qed.

(** What [main] prints for a document whose first record is accepted and
    whose other records validate: the converted author, the projection on
    title and author, which holds these two and nothing else, and the
    projection away from them, which holds the five other attributes. *)
Theorem main_output (item : gmap pystr pyval) (rest : list (gmap pystr pyval))
    (books : list BaseModel)
    (title author publisher price isbn_10 isbn_13 subtitle : pyval) :
  is_Some (item !! py "isbn_10") ∨ is_Some (item !! py "isbn_13") →
  well_typed str_validator item "title" title →
  well_typed str_validator item "author" author →
  well_typed str_validator item "publisher" publisher →
  well_typed float_validator item "price" price →
  valid_isbn_10 item isbn_10 →
  optional_text item "isbn_13" isbn_13 →
  optional_text item "subtitle" subtitle →
  mapM (BaseModel_init Book) rest = Ok books →
  main (item :: rest)
  = Ok (author,
        {[ py "title" := title; py "author" := author ]},
        {[ py "publisher" := publisher;
           py "price" := price;
           py "isbn_10" := isbn_10;
           py "isbn_13" := isbn_13;
           py "subtitle" := subtitle ]})
  ∧ ∃ s, author = PStr s.
Proof.
  intros Hid Ht Ha Hp Hpr H10 H13 Hsub Hrest.
  destruct (Book_init_accepts item title author publisher price isbn_10 isbn_13 subtitle)
    as [fields_set Hbook]; try done.
  split; [by eapply main_first_book|].
  destruct Ha as (v & _ & _ & Hv). by eapply str_validator_str.
Qed.

(** [main] raises in two cases only: [IndexError] on a document without
    records, and the exception of the first record that does not validate;
    the records after that one are not looked at, and neither reading the
    author of a validated book nor projecting it fails. *)
Theorem main_raises (data : list (gmap pystr pyval)) (e : exn) :
  main data = Raise e
  ↔ (data = [] ∧ e = IndexError (py "list index out of range"))
    ∨ ∃ before item after,
        data = before ++ item :: after
        ∧ Forall (λ r, ∃ b, BaseModel_init Book r = Ok b) before
        ∧ BaseModel_init Book item = Raise e.
Proof.
  destruct (mapM (BaseModel_init Book) data) as [books|exc] eqn:Hbooks.
  - assert (∀ e', ¬ ∃ before item after,
              data = before ++ item :: after
              ∧ Forall (λ r, ∃ b, BaseModel_init Book r = Ok b) before
              ∧ BaseModel_init Book item = Raise e') as Hnone.
    { intros e' H. apply mapM_raises in H. by rewrite Hbooks in H. }
    destruct data as [|item rest].
    + cbn in Hbooks. injection Hbooks as <-. unfold main. cbn.
      split; [intros [= <-]; by left|]. intros [[_ ->]|H]; [done|]. by apply Hnone in H.
    + cbn [mapM] in Hbooks.
      destruct (BaseModel_init Book item) as [[attributes fields_set]|] eqn:Hbook;
        cbn in Hbooks; [|done].
      destruct (mapM (BaseModel_init Book) rest) as [books'|] eqn:Hrest; cbn in Hbooks; [|done].
      destruct (Book_init_values _ _ _ Hbook) as (_ & ? & ? & ? & ? & ? & ? & ? & H).
      destruct H as (_ & _ & _ & _ & _ & _ & _ & ->).
      rewrite (main_first_book _ _ _ _ _ _ _ _ _ _ _ Hbook Hrest).
      split; [done|]. intros [[? _]|H]; [done|]. by apply Hnone in H.
  - assert (main data = Raise exc) as -> by (unfold main; by rewrite Hbooks).
    split.
    + intros [= <-]. right. by apply mapM_raises.
    + intros [[-> _]|H]; [done|]. apply mapM_raises in H. congruence.
Qed.

(** ** A Book from the attributes of a Book *)

Lemma Book_dict_lookups (title author publisher price isbn_10 isbn_13 subtitle : pyval) :
  let attributes := Book_dict title author publisher price isbn_10 isbn_13 subtitle in
  attributes !! py "title" = Some title
  ∧ attributes !! py "author" = Some author
  ∧ attributes !! py "publisher" = Some publisher
  ∧ attributes !! py "price" = Some price
  ∧ attributes !! py "isbn_10" = Some isbn_10
  ∧ attributes !! py "isbn_13" = Some isbn_13
  ∧ attributes !! py "subtitle" = Some subtitle.
Proof. repeat split; vm_compute; reflexivity. Qed.

(** A [Book] built again from [book.dict()], for a validated [book]: when the record it was
    built from had the key [isbn_10], the attributes validate again and give
    the same attributes; when it had not, [book.dict()] holds
    [isbn_10 = None] and is rejected. *)
Theorem Book_of_dict (raw : gmap pystr pyval) (book : BaseModel) :
  BaseModel_init Book raw = Ok book →
  match raw !! py "isbn_10" with
  | Some _ =>
      ∃ fields_set,
        BaseModel_init Book (BaseModel_dict book None None)
        = Ok {| __dict__ := __dict__ book; __fields_set__ := fields_set |}
  | None =>
      BaseModel_init Book (BaseModel_dict book None None)
      = Raise (ValidationError
                 [(py "isbn_10", TypeError (py "'NoneType' object is not iterable"))])
  end.
Proof.
  intros Hinit.
  assert (∃ fields_set, BaseModel_init Book raw =
            Ok {| __dict__ := __dict__ book; __fields_set__ := fields_set |}) as H.
  { exists (__fields_set__ book). by destruct book. }
  destruct H as [fields_set H]. apply Book_init_values in H
    as (_ & title & author & publisher & price & isbn_10 & isbn_13 & subtitle
        & (vt & _ & _ & Ht) & (va & _ & _ & Ha) & (vp & _ & _ & Hp) & (vpr & _ & _ & Hpr)
        & H10 & H13 & Hsub & Hdict).
  apply str_validator_str in Ht as [t ->]. apply str_validator_str in Ha as [a ->].
  apply str_validator_str in Hp as [p' ->]. apply float_validator_float in Hpr as [x ->].
  assert (∀ name v', optional_text raw name v' → v' = PNone ∨ ∃ s, v' = PStr s) as Hopt.
  { intros name v'. unfold optional_text.
    destruct (raw !! py name) as [v|]; [|by left].
    destruct (is_None v) eqn:Hn; [destruct v; try done; by left|].
    intros Hv. right. apply (str_validator_str v). by destruct v. }
  apply Hopt in H13, Hsub. clear Hopt.
  change (BaseModel_dict book None None) with (__dict__ book). rewrite Hdict.
  pose proof (Book_dict_lookups (PStr t) (PStr a) (PStr p') (PFloat x) isbn_10 isbn_13 subtitle)
    as (Lt & La & Lp & Lpr & L10 & L13 & Lsub).
  unfold valid_isbn_10 in H10. destruct (raw !! py "isbn_10") as [v|].
  - destruct H10 as (s & Hs & Hok).
    destruct (str_validator_str _ _ Hs) as [s' ->].
    pose proof (isbn_10_validator_returns _ _ Hok) as ->.
    apply Book_init_accepts.
    + left. rewrite L10. eauto.
    + exists (PStr t). by rewrite Lt.
    + exists (PStr a). by rewrite La.
    + exists (PStr p'). by rewrite Lp.
    + exists (PFloat x). by rewrite Lpr.
    + unfold valid_isbn_10. rewrite L10. by exists (PStr s').
    + unfold optional_text. rewrite L13. by destruct H13 as [->|[s ->]].
    + unfold optional_text. rewrite Lsub. by destruct Hsub as [->|[s ->]].
  - subst isbn_10.
    destruct H13 as [->|[s13 ->]], Hsub as [->|[ssub ->]]; vm_compute; reflexivity.
Qed.

End Further.

(** ** Runs on [sample] *)

Lemma Book_attribute_types_witness :
  ∃ book,
    BaseModel_init (@Book sample) (book_record (PStr (py "0-471-95869-7"))) = Ok book
    ∧ ∃ title author publisher price isbn_10 isbn_13 subtitle,
        __dict__ book = Book_dict (PStr title) (PStr author) (PStr publisher) (PFloat price)
                                  isbn_10 isbn_13 subtitle
        ∧ (isbn_10 = PNone
           ∨ ∃ s, isbn_10 = PStr s
                  ∧ isbn_10_validator (rt:=sample) (PStr s) = Ok (PStr s))
        ∧ (isbn_13 = PNone ∨ ∃ s, isbn_13 = PStr s)
        ∧ (subtitle = PNone ∨ ∃ s, subtitle = PStr s).
Proof.
  eexists. split; [vm_compute; reflexivity|].
  apply (Book_attribute_types (rt:=sample) (book_record (PStr (py "0-471-95869-7")))).
  vm_compute. reflexivity.
Defined.

Lemma bad_checksum_rejected_witness :
  isbn_10_validator (rt:=sample) (PStr (py "0471958698"))
    = Raise (ISBN10FormatError (py "0471958698")
               (py "ISBN-10 weighted sum must be divisible by 11."))
  ∧ ∀ raw, raw !! py "isbn_10" = Some (PStr (py "0471958698")) →
      quiet (str_validator (rt:=sample)) raw "title" →
      quiet (str_validator (rt:=sample)) raw "author" →
      quiet (str_validator (rt:=sample)) raw "publisher" →
      quiet (float_validator (rt:=sample)) raw "price" →
      BaseModel_init (@Book sample) raw
        = Raise (ISBN10FormatError (py "0471958698")
                   (py "ISBN-10 weighted sum must be divisible by 11.")).
Proof.
  apply (bad_checksum_rejected (rt:=sample) (py "0471958698") [0; 4; 7; 1; 9; 5; 8; 6; 9; 8]%Z).
  - vm_compute. reflexivity.
  - vm_compute. reflexivity.
  - vm_compute. discriminate.
Defined.

Lemma refused_digit_is_a_value_error_witness :
  ∃ message,
    isbn_10_validator (rt:=sample) (PStr (178 :: py "471958697")) = Raise (ValueError message)
    ∧ (∀ raw book, raw !! py "isbn_10" = Some (PStr (178 :: py "471958697")) →
         BaseModel_init (@Book sample) raw ≠ Ok book)
    ∧ BaseModel_init (@Book sample) (book_record (PStr (178 :: py "471958697")))
      = Raise (ValidationError [(py "isbn_10", ValueError message)]).
Proof.
  apply (refused_digit_is_a_value_error (rt:=sample) (178 :: py "471958697") 178).
  - vm_compute. reflexivity.
  - vm_compute. constructor.
  - vm_compute. reflexivity.
  - vm_compute. reflexivity.
Defined.

Lemma null_identifier_accepted_witness :
  ∃ fields_set,
    BaseModel_init (@Book sample) (<[py "isbn_13" := PNone]> no_identifier_record) =
      Ok {| __dict__ := Book_dict (PStr (py "Introduction to Graph Theory"))
                          (PStr (py "Robin J. Wilson")) (PStr (py "Wiley"))
                          (PFloat price_39_5) PNone PNone PNone;
            __fields_set__ := fields_set |}.
Proof.
  apply (null_identifier_accepted (rt:=sample) (<[py "isbn_13" := PNone]> no_identifier_record)).
  - vm_compute. reflexivity.
  - vm_compute. reflexivity.
  - eexists. split; [vm_compute; reflexivity|]. split; [discriminate|reflexivity].
  - eexists. split; [vm_compute; reflexivity|]. split; [discriminate|reflexivity].
  - eexists. split; [vm_compute; reflexivity|]. split; [discriminate|reflexivity].
  - eexists. split; [vm_compute; reflexivity|]. split; [discriminate|reflexivity].
  - vm_compute. reflexivity.
Defined.

Lemma isbn_13_unchecked_witness :
  ∃ fields_set,
    BaseModel_init (@Book sample)
      (<[py "isbn_13" := PStr (py "not an ISBN")]> (book_record (PStr (py "0471958697")))) =
      Ok {| __dict__ := Book_dict (PStr (py "Introduction to Graph Theory"))
                          (PStr (py "Robin J. Wilson")) (PStr (py "Wiley"))
                          (PFloat price_39_5) (PStr (py "0471958697"))
                          (PStr (py "not an ISBN")) PNone;
            __fields_set__ := fields_set |}.
Proof.
  apply (isbn_13_unchecked (rt:=sample) (book_record (PStr (py "0471958697")))).
  - eexists. split; [vm_compute; reflexivity|]. split; [discriminate|reflexivity].
  - eexists. split; [vm_compute; reflexivity|]. split; [discriminate|reflexivity].
  - eexists. split; [vm_compute; reflexivity|]. split; [discriminate|reflexivity].
  - eexists. split; [vm_compute; reflexivity|]. split; [discriminate|reflexivity].
  - vm_compute. eexists. split; [reflexivity|]. vm_compute. reflexivity.
  - vm_compute. reflexivity.
Defined.

Lemma substitution_detected_witness :
  isbn_10_validator (rt:=sample) (PStr (py "04719" ++ 54 :: py "8697"))
    = Raise (ISBN10FormatError (py "04719" ++ 54 :: py "8697")
               (py "ISBN-10 weighted sum must be divisible by 11.")).
Proof.
  apply (substitution_detected (rt:=sample) (py "04719") 53 54 (py "8697")).
  - repeat constructor.
  - reflexivity.
  - reflexivity.
  - vm_compute. discriminate.
  - vm_compute. reflexivity.
Defined.

Lemma transposition_detected_witness :
  isbn_10_validator (rt:=sample) (PStr (py "04" ++ 49 :: 55 :: py "958697"))
    = Raise (ISBN10FormatError (py "04" ++ 49 :: 55 :: py "958697")
               (py "ISBN-10 weighted sum must be divisible by 11.")).
Proof.
  apply (transposition_detected (rt:=sample) (py "04") 55 49 (py "958697")).
  - repeat constructor.
  - reflexivity.
  - vm_compute. discriminate.
  - vm_compute. reflexivity.
Defined.


Lemma main_output_witness :
  main (rt:=sample) [book_record (PStr (py "155404295X"));
                     book_record (PStr (py "0-471-95869-7"))]
  = Ok (PStr (py "Robin J. Wilson"),
        {[ py "title" := PStr (py "Introduction to Graph Theory");
           py "author" := PStr (py "Robin J. Wilson") ]},
        {[ py "publisher" := PStr (py "Wiley");
           py "price" := PFloat price_39_5;
           py "isbn_10" := PStr (py "155404295X");
           py "isbn_13" := PNone;
           py "subtitle" := PNone ]})
  ∧ ∃ s, PStr (py "Robin J. Wilson") = PStr s.
Proof.
  eapply (main_output (rt:=sample) (book_record (PStr (py "155404295X")))
            [book_record (PStr (py "0-471-95869-7"))]).
  - left. eexists. vm_compute. reflexivity.
  - eexists. split; [vm_compute; reflexivity|]. split; [discriminate|reflexivity].
  - eexists. split; [vm_compute; reflexivity|]. split; [discriminate|reflexivity].
  - eexists. split; [vm_compute; reflexivity|]. split; [discriminate|reflexivity].
  - eexists. split; [vm_compute; reflexivity|]. split; [discriminate|reflexivity].
  - vm_compute. eexists. split; [reflexivity|]. vm_compute. reflexivity.
  - vm_compute. reflexivity.
  - vm_compute. reflexivity.
  - vm_compute. reflexivity.
Defined.

Lemma Book_of_dict_witness :
  ∃ book,
    BaseModel_init (@Book sample)
      (<[py "isbn_13" := PStr (py "9780471958697")]> no_identifier_record) = Ok book
    ∧ BaseModel_init (@Book sample) (BaseModel_dict book None None)
      = Raise (ValidationError
                 [(py "isbn_10", TypeError (py "'NoneType' object is not iterable"))]).
Proof.
  destruct (BaseModel_init (@Book sample)
              (<[py "isbn_13" := PStr (py "9780471958697")]> no_identifier_record))
    as [book|e] eqn:Hbook; [|vm_compute in Hbook; discriminate Hbook].
  exists book. split; [reflexivity|].
  pose proof (Book_of_dict (rt:=sample) _ _ Hbook) as W.
  assert ((<[py "isbn_13" := PStr (py "9780471958697")]> no_identifier_record : gmap pystr pyval)
            !! py "isbn_10" = None) as E by (vm_compute; reflexivity).
  rewrite E in W. exact W.
Defined.
